(** * trytond-activity: a shallow embedding of [activity.py] and [party.py]

    The module schedules employee activities on top of the Tryton framework.
    This development embeds the handlers that carry the module's logic
    (temporal derivation, calendar colours, busy-hours aggregation, record
    creation, workflow transitions, party copy) and states their properties.

    Conventions of the embedding:
    - a Python [dict] with string keys is a [gmap string value];
    - a raised exception is the [Raise] outcome of the [result] monad;
    - [datetime.date] is its proleptic ordinal (a day number), [datetime.time]
      the microsecond of the day, [datetime.timedelta] a number of
      microseconds, and a naive [datetime.datetime] the number of
      microseconds [ordinal * 86400000000 + microsecond of the day];
    - what the framework provides (transaction context, company and its
      time zone, the wall clock, the numbering sequence, the SQL table) is
      passed explicitly. *)

From Stdlib Require Import ZArith String Ascii List Lia HexadecimalString.
From Stdlib Require Import Floats.PrimFloat Floats.FloatOps Floats.SpecFloat.
From stdpp Require Import base option list gmap strings.

Local Open Scope string_scope.
Local Open Scope Z_scope.

(** ** Python outcomes and values *)

Module Py.

(** The exceptions the embedded code can raise. *)
Inductive exn : Type :=
| AttributeError
| TypeError
| ValueError
| OverflowError
| UserError (msg : string).

Inductive result (A : Type) : Type :=
| Ok (a : A)
| Raise (e : exn).
Global Arguments Ok {A} a.
Global Arguments Raise {A} e.

Global Instance result_ret : MRet result := fun _ a => Ok a.
Global Instance result_bind : MBind result := fun _ _ f m =>
  match m with
  | Ok a => f a
  | Raise e => Raise e
  end.
Global Instance result_fmap : FMap result := fun _ _ f m =>
  match m with
  | Ok a => Ok (f a)
  | Raise e => Raise e
  end.

(** [for x in xs: ...] collecting one outcome per element; the first
    exception aborts the loop. *)
Fixpoint mapM {A B : Type} (f : A -> result B) (xs : list A) : result (list B) :=
  match xs with
  | [] => Ok []
  | x :: xs' => y ← f x; ys ← mapM f xs'; Ok (y :: ys)
  end.

(** The values a field of the module can hold. *)
Inductive value : Type :=
| VNone
| VDate (d : Z)
| VTime (t : Z)
| VTimeDelta (td : Z)
| VDateTime (dt : Z)
| VStr (s : string).

Global Instance value_eq_dec : EqDecision value.
Proof. solve_decision. Defined.

(** Truth value testing: [None], a zero [timedelta] and the empty string
    are false; dates, times (since Python 3.5, midnight included) and
    datetimes are always true. *)
Definition truthy (v : value) : bool :=
  match v with
  | VNone => false
  | VDate _ | VTime _ | VDateTime _ => true
  | VTimeDelta td => negb (td =? 0)
  | VStr s => negb (String.eqb s "")
  end.

(** [d.get(key)]: the value, or [None] when the key is missing. *)
Definition get (d : gmap string value) (key : string) : value :=
  default VNone (d !! key).

(** An optional typed attribute read as a Python value. *)
Definition of_option (inj : Z -> value) (o : option Z) : value :=
  match o with
  | Some z => inj z
  | None => VNone
  end.

End Py.
Import Py.

Abbreviation dict := (gmap string value).

(** ** The [datetime] module *)

Module Datetime.

Definition usec_per_day : Z := 86400000000.

(** [date.min.toordinal()] and [date.max.toordinal()]. *)
Definition min_ordinal : Z := 1.
Definition max_ordinal : Z := 3652059.

Definition in_range (dt : Z) : bool :=
  (min_ordinal * usec_per_day <=? dt) && (dt <? (max_ordinal + 1) * usec_per_day).

(** [dt.date()] and [dt.time()]. *)
Definition date (dt : Z) : Z := dt / usec_per_day.
Definition time (dt : Z) : Z := dt mod usec_per_day.

(** [datetime.time()]: midnight. *)
Definition midnight : Z := 0.

(** [datetime.datetime.combine(d, t)] on a date and a time. *)
Definition combine (d t : Z) : Z := d * usec_per_day + t.

(** [dt + td]; the result must be a representable datetime. *)
Definition add (dt td : Z) : result Z :=
  let r := dt + td in
  if in_range r then Ok r else Raise OverflowError.

(** [dt - td]. *)
Definition sub (dt td : Z) : result Z := add dt (- td).

(** [a - b] on two datetimes: a timedelta, always representable. *)
Definition diff (a b : Z) : Z := a - b.

(** A readable constructor for examples: ordinal day, hour, minute. *)
Definition at_ (ordinal h m : Z) : Z :=
  combine ordinal ((h * 60 + m) * 60000000).

End Datetime.

(** ** Execution environment *)

(** A [pytz] time zone, seen through the only thing the code asks of it:
    [tz.localize(value).utcoffset()], the offset (a timedelta) that the zone
    assigns to a naive datetime read as local time. *)
Record tzinfo : Type := { localize_utcoffset : Z -> Z }.

Record Company : Type := { company_timezone : option tzinfo }.

(** [Transaction().context] with the company already browsed, and the wall
    clock read by [datetime.datetime.now()]. *)
Record Env : Type := {
  context_company : option Company;
  context_activity_color_type : bool;
  clock_now : Z
}.

(** ** Records *)

Record ActivityType : Type := { type_color : option string }.

Record Employee : Type := {
  employee_id : Z;
  employee_color : option string
}.

Record Activity : Type := {
  id : Z;
  activity_type : option ActivityType;
  employee : option Employee;
  date : option Z;
  time : option Z;
  duration : option Z;
  dtstart : option Z;
  state : string
}.

Definition set_date_time (self : Activity) (d t : option Z) : Activity :=
  {| id := id self; activity_type := activity_type self;
     employee := employee self; date := d; time := t;
     duration := duration self; dtstart := dtstart self;
     state := state self |}.

(** [getattr(record, field)] for the three fields [update_dates] reads. *)
Definition getattr (record : Activity) (field : string) : value :=
  if String.eqb field "date" then of_option VDate (date record)
  else if String.eqb field "time" then of_option VTime (time record)
  else if String.eqb field "duration" then of_option VTimeDelta (duration record)
  else VNone.

(** ** Temporal derivation *)

Module Temporal.

(** [Activity.get_timezone]: [None] unless the context has a company with
    a time zone. *)
Definition get_timezone (env : Env) : option tzinfo :=
  match context_company env with
  | Some company => company_timezone company
  | None => None
  end.

(** [Activity.utc_to_local]. *)
Definition utc_to_local (env : Env) (value : Z) : result Z :=
  match get_timezone env with
  | None => Ok value
  | Some timezone => Datetime.add value (localize_utcoffset timezone value)
  end.

(** [Activity.local_to_utc]. *)
Definition local_to_utc (env : Env) (value : Z) : result Z :=
  match get_timezone env with
  | None => Ok value
  | Some timezone => Datetime.sub value (localize_utcoffset timezone value)
  end.

(** [Activity.on_change_dtstart]: the form handler that fills date and
    time from the start timestamp. *)
Definition on_change_dtstart (env : Env) (self : Activity) : result Activity :=
  match dtstart self with
  | None => Ok self
  | Some start =>
      dt ← utc_to_local env start;
      if Datetime.time dt =? Datetime.midnight
      then Ok (set_date_time self (Some (Datetime.date dt)) None)
      else Ok (set_date_time self (Some (Datetime.date dt)) (Some (Datetime.time dt)))
  end.

(** The two ways the first block of [update_dates] ends: [return values]
    or falling through to the rest of the function. *)
Inductive flow : Type :=
| Return (values : dict)
| Continue (values : dict).

(** The block under [if not 'date' in values]. *)
Definition from_timestamps (values : dict) (record : option Activity) : result flow :=
  match values !! "date" with
  | Some _ => Ok (Continue values)
  | None =>
      '(dtstart, values) ←
        match values !! "dtstart" with
        | Some (VDateTime dt) =>
            Ok (Some dt,
                <["time" := VTime (Datetime.time dt)]>
                  (<["date" := VDate (Datetime.date dt)]> values))
        | Some _ => Raise AttributeError
        | None =>
            match record with
            | Some r => Ok (dtstart r, values)
            | None => Ok (None, values)
            end
        end;
      match values !! "dtend" with
      | Some dtend =>
          match truthy dtend, dtstart with
          | true, Some start =>
              match dtend with
              | VDateTime e =>
                  Ok (Return (<["duration" := VTimeDelta (Datetime.diff e start)]> values))
              | _ => Raise TypeError
              end
          | _, _ => Ok (Return (<["duration" := VNone]> values))
          end
      | None => Ok (Continue values)
      end
  end.

(** The loop [for field in ('date', 'time', 'duration')] under [if record]. *)
Definition fallback (values : dict) (record : option Activity) : dict :=
  match record with
  | None => values
  | Some r =>
      foldl (fun (values : dict) field =>
               match values !! field with
               | Some _ => values
               | None => <[field := getattr r field]> values
               end)
            values ["date"; "time"; "duration"]
  end.

(** The rest of [update_dates], from [date = values.get('date')] on. *)
Definition to_timestamps (env : Env) (values : dict) : result dict :=
  let date := get values "date" in
  let time := get values "time" in
  if negb (truthy date) then Ok values else
  let time := if negb (truthy time)
              then VTime (Datetime.time (clock_now env)) else time in
  let duration := get values "duration" in
  dtstart ←
    match date, (if truthy time then time else VTime Datetime.midnight) with
    | VDate d, VTime t => Ok (Datetime.combine d t)
    | VDateTime dt, VTime t => Ok (Datetime.combine (Datetime.date dt) t)
    | _, _ => Raise TypeError
    end;
  dtstart ← local_to_utc env dtstart;
  dtend ←
    (if truthy time && truthy duration
     then match duration with
          | VTimeDelta td => VDateTime <$> Datetime.add dtstart td
          | _ => Raise TypeError
          end
     else Ok VNone);
  Ok (<["dtend" := dtend]> (<["dtstart" := VDateTime dtstart]> values)).

(** [Activity.update_dates]. *)
Definition update_dates (env : Env) (values : dict) (record : option Activity)
  : result dict :=
  step ← from_timestamps values record;
  match step with
  | Return values => Ok values
  | Continue values => to_timestamps env (fallback values record)
  end.

(** The five fields [update_dates] may write, and the relation between
    an update and a mapping that keeps all its keys and differs from it
    on those fields only. *)
Definition temporal_fields : list string :=
  ["date"; "time"; "duration"; "dtstart"; "dtend"].

Definition grows (values out : dict) : Prop :=
  forall k : string,
    (is_Some (values !! k) -> is_Some (out !! k))
    /\ (k ∉ temporal_fields -> out !! k = values !! k).

End Temporal.

(** ** Colours *)

Module Color.

(** Tryton's default colour, and the triple used when parsing fails. *)
Definition _COLOR : string := "#ABD6E3".
Definition _RGB : Z * Z * Z := (67, 84, 90).

(** [s.lstrip('#')]. *)
Fixpoint lstrip (c : ascii) (s : string) : string :=
  match s with
  | String a s' => if Ascii.eqb a c then lstrip c s' else s
  | EmptyString => s
  end.

(** White space for [int()] on an ASCII string: tab, line feed, vertical
    tab, form feed, carriage return, space. *)
Definition isspace (c : ascii) : bool :=
  let n := Z.of_N (N_of_ascii c) in
  ((9 <=? n) && (n <=? 13)) || (n =? 32).

Fixpoint skip_space (s : string) : string :=
  match s with
  | String a s' => if isspace a then skip_space s' else s
  | EmptyString => s
  end.

Definition digit16 (c : ascii) : option Z :=
  let n := Z.of_N (N_of_ascii c) in
  if (48 <=? n) && (n <=? 57) then Some (n - 48)
  else if (97 <=? n) && (n <=? 102) then Some (n - 87)
  else if (65 <=? n) && (n <=? 70) then Some (n - 55)
  else None.

(** The digit scan of [int(s, 16)]: digits with single underscores
    between them, up to the first other character. Yields the number, the
    count of digits and the unread rest; [None] on a doubled or trailing
    underscore. *)
Fixpoint scan16 (s : string) (acc : Z) (digits : nat) (prev_underscore : bool)
  : option (Z * nat * string) :=
  match s with
  | String c s' =>
      if Ascii.eqb c "_" then
        if prev_underscore then None else scan16 s' acc digits true
      else
        match digit16 c with
        | Some d => scan16 s' (16 * acc + d) (S digits) false
        | None => if prev_underscore then None else Some (acc, digits, s)
        end
  | EmptyString => if prev_underscore then None else Some (acc, digits, s)
  end.

(** An optional sign. *)
Definition strip_sign (s : string) : bool * string :=
  match s with
  | String c s' =>
      if Ascii.eqb c "+" then (false, s')
      else if Ascii.eqb c "-" then (true, s')
      else (false, s)
  | EmptyString => (false, s)
  end.

(** An optional [0x] or [0X] prefix, which one underscore may follow. *)
Definition strip_prefix (s : string) : string :=
  match s with
  | String c0 (String c1 s') =>
      if Ascii.eqb c0 "0" && (Ascii.eqb c1 "x" || Ascii.eqb c1 "X") then
        match s' with
        | String c2 s'' => if Ascii.eqb c2 "_" then s'' else s'
        | EmptyString => s'
        end
      else s
  | _ => s
  end.

Definition starts_with_underscore (s : string) : bool :=
  match s with
  | String c _ => Ascii.eqb c "_"
  | EmptyString => false
  end.

(** [int(s, 16)] on an ASCII string: surrounding white space, an optional
    sign, an optional prefix, then at least one digit; anything else is a
    [ValueError]. *)
Definition int16 (s : string) : result Z :=
  let '(negative, s) := strip_sign (skip_space s) in
  let s := strip_prefix s in
  if starts_with_underscore s then Raise ValueError
  else
    match scan16 s 0 0%nat false with
    | Some (n, S _, rest) =>
        match skip_space rest with
        | EmptyString => Ok (if negative then - n else n)
        | String _ _ => Raise ValueError
        end
    | _ => Raise ValueError
    end.

(** ['%02x' % z]: lower-case hexadecimal, zero-padded to two characters,
    the sign counting as one of them. *)
Definition hex_digits (n : N) : string :=
  HexadecimalString.NilEmpty.string_of_uint (N.to_hex_uint n).

Definition format_02x (z : Z) : string :=
  if z <? 0 then "-" ++ hex_digits (Z.to_N (- z))
  else
    let h := hex_digits (Z.to_N z) in
    if (String.length h <? 2)%nat then "0" ++ h else h.

(** The argument of [RGB(...)]: a string or a triple. *)
Inductive color_arg : Type :=
| CStr (s : string)
| CTuple (t : Z * Z * Z).

(** [RGB.__init__]; the state of an [RGB] object is its [value]. *)
Definition RGB (color : color_arg) : Z * Z * Z :=
  match color with
  | CStr color =>
      let color := lstrip "#" color in
      match int16 (substring 0 2 color),
            int16 (substring 2 2 color),
            int16 (substring 4 2 color) with
      | Ok r, Ok g, Ok b => (r, g, b)
      | _, _, _ => _RGB
      end
  | CTuple t => t
  end.

(** [RGB.hex]. *)
Definition hex (value : Z * Z * Z) : string :=
  let '(r, g, b) := value in
  "#" ++ format_02x r ++ format_02x g ++ format_02x b.

(** [RGB.increase]. *)
Definition increase (value : Z * Z * Z) (inc : Z) : Z * Z * Z :=
  let '(r, g, b) := value in
  (Z.max 0 (Z.min 255 (r + inc)),
   Z.max 0 (Z.min 255 (g + inc)),
   Z.max 0 (Z.min 255 (b + inc))).

(** [RGB.gray]. *)
Definition gray (value : Z * Z * Z) : Z :=
  let '(r, g, b) := value in (r + g + b) / 3.

(** Conversion of an [int] operand to binary64 (round to nearest even). *)
Definition float_of_int (n : Z) : result float :=
  let f := SF2Prim (binary_normalize prec emax n 0 false) in
  if PrimFloat.is_infinity f then Raise OverflowError else Ok f.

(** [int(f)]: truncation towards zero. *)
Definition int_of_float (f : float) : result Z :=
  match Prim2SF f with
  | S754_zero _ => Ok 0
  | S754_finite s m e =>
      let a := Z.shiftl (Z.pos m) e in
      Ok (if s then - a else a)
  | S754_infinity _ => Raise OverflowError
  | S754_nan => Raise ValueError
  end.

(** [RGB.increase_ratio]. *)
Definition increase_ratio (value : Z * Z * Z) (ratio : float)
  : result (Z * Z * Z) :=
  x ← float_of_int (255 - gray value);
  inc ← int_of_float (PrimFloat.mul x ratio);
  Ok (increase value inc).

(** The literal [0.8]: the binary64 number nearest to it. *)
Definition ratio_0_8 : float := 0x1.999999999999ap-1%float.

(** The increment [increase_ratio] computes in binary64 for a ratio of
    0.8 and [n = 255 - gray], and the test that it is the exact integer
    part of eight tenths of [n]. *)
Definition fade_increment (n : Z) : result Z :=
  x ← float_of_int n; int_of_float (PrimFloat.mul x ratio_0_8).

Definition fade_increment_exact (n : nat) : bool :=
  match fade_increment (Z.of_nat n) with
  | Ok k => k =? 8 * Z.of_nat n / 10
  | Raise _ => false
  end.

(** A channel within one byte in absolute value. *)
Definition channel_ok (x : Z) : Prop := -255 <= x <= 255.

End Color.

(** ** Calendar colours of an activity *)

Module Calendar.
Import Color.

(** Truth value of an optional [Char] field. *)
Definition has_color (c : option string) : bool :=
  match c with
  | Some s => negb (String.eqb s "")
  | None => false
  end.

(** The colour chosen by the first half of
    [get_calendar_background_color], before any fading. *)
Definition base_color (env : Env) (self : Activity) : string :=
  let color := _COLOR in
  if context_activity_color_type env then
    match activity_type self with
    | Some type =>
        if has_color (type_color type) then default color (type_color type)
        else color
    | None => color
    end
  else
    match employee self with
    | Some e =>
        if has_color (employee_color e) then default color (employee_color e)
        else color
    | None => color
    end.

(** [Activity.get_calendar_background_color]. *)
Definition get_calendar_background_color (env : Env) (self : Activity)
  : result string :=
  let color := base_color env self in
  if negb (String.eqb (state self) "planned") then
    rgb ← increase_ratio (RGB (CStr color)) ratio_0_8;
    Ok (hex rgb)
  else Ok color.

(** [Activity.get_calendar_color]; the background is the value of the
    function field [calendar_background_color]. *)
Definition get_calendar_color (env : Env) (self : Activity) : result string :=
  background ← get_calendar_background_color env self;
  let rgb := RGB (CStr background) in
  if gray rgb >? 128 then Ok "black" else Ok "white".

End Calendar.

(** ** Busy hours of the day *)

Module BusyHours.

(** A row of the [activity_activity] table, with the columns the query
    reads. [employee] and [date] are required columns. *)
Record Row : Type := {
  row_id : Z;
  row_employee : Z;
  row_date : Z;
  row_duration : option Z
}.

Definition key (r : Row) : Z * Z := (row_employee r, row_date r).

(** SQL [SUM]: NULL values are skipped, and the sum of no value is NULL. *)
Definition Sum (xs : list (option Z)) : option Z :=
  foldr (fun x acc =>
           match x, acc with
           | Some a, Some b => Some (a + b)
           | Some a, None => Some a
           | None, _ => acc
           end) None xs.

(** [min(xs)] and [max(xs)] on a list of dates some of which may be
    [None]: an empty list is a [ValueError], comparing with [None] a
    [TypeError]; a single element is returned without any comparison. *)
Definition py_extremum (pick : Z -> Z -> Z) (xs : list (option Z))
  : result (option Z) :=
  match xs with
  | [] => Raise ValueError
  | [x] => Ok x
  | x :: xs' =>
      foldl (fun acc y =>
               match acc, y with
               | Ok (Some a), Some b => Ok (Some (pick a b))
               | Raise e, _ => Raise e
               | _, _ => Raise TypeError
               end) (Ok x) xs'
  end.

(** The [WHERE] clause; a comparison with NULL selects nothing. *)
Definition where_ (employees : list Z) (min_date max_date : option Z) (r : Row)
  : bool :=
  match min_date, max_date with
  | Some lo, Some hi =>
      bool_decide (row_employee r ∈ employees)
      && (lo <=? row_date r) && (row_date r <=? hi)
  | _, _ => false
  end.

(** [cursor.fetchall()] for the query: one record per (employee, date)
    group of the selected rows. The order of the records is the database's
    choice; the groups are listed here by first occurrence. *)
Definition fetchall (table : list Row) (employees : list Z)
    (min_date max_date : option Z) : list (Z * Z * option Z) :=
  let selected := List.filter (where_ employees min_date max_date) table in
  (fun k =>
     (k, Sum (row_duration <$> List.filter (fun r => bool_decide (key r = k)) selected)))
  <$> remove_dups (key <$> selected).

(** [Activity.get_day_busy_hours]. *)
Definition get_day_busy_hours (table : list Row) (activities : list Activity)
  : result (gmap Z value) :=
  employees ← mapM (fun x => match employee x with
                             | Some e => Ok (employee_id e)
                             | None => Raise AttributeError
                             end) activities;
  min_date ← py_extremum Z.min (date <$> activities);
  max_date ← py_extremum Z.max (date <$> activities);
  let records := fetchall table employees min_date max_date in
  let sums : gmap (Z * Z) value :=
    foldl (fun sums record =>
             let '(e, d, s) := record in
             <[(e, d) := of_option VTimeDelta s]> sums) ∅ records in
  foldl (fun res activity =>
           r ← res;
           e ← match employee activity with
               | Some e => Ok (employee_id e)
               | None => Raise AttributeError
               end;
           let found :=
             match date activity with
             | Some d => sums !! (e, d)
             | None => None
             end in
           Ok (<[id activity := default (VTimeDelta 0) found]> r))
        (Ok ∅) activities.

(** The total recorded for an employee on a day, as the query and the
    lookup deliver it: zero when the table has no row for them, else the
    [SUM] of the rows' durations ([None] when none of them has one). *)
Definition day_total (table : list Row) (employee_id date : Z) : value :=
  match List.filter (fun r => bool_decide (key r = (employee_id, date))) table with
  | [] => VTimeDelta 0
  | group => of_option VTimeDelta (Sum (row_duration <$> group))
  end.

End BusyHours.

(** ** Workflow *)

Module Workflow.

(** The values of the [state] selection. *)
Definition states : list string := ["planned"; "done"; "cancelled"].

(** [Activity.__setup__] on [_transitions]: the set inherited from
    [super().__setup__()] extended with six pairs. *)
Definition setup_transitions (inherited : gset (string * string))
  : gset (string * string) :=
  inherited ∪ {[ ("planned", "done"); ("planned", "cancelled");
                 ("done", "planned"); ("done", "cancelled");
                 ("cancelled", "planned"); ("cancelled", "done") ]}.

(** The framework's [Workflow.__setup__] starts from the empty set. *)
Definition _transitions : gset (string * string) := setup_transitions ∅.

End Workflow.

(** ** Creation *)

Module Create.
Import Temporal.

(** The message raised when no sequence is configured. *)
Definition no_activity_sequence : string := "activity.no_activity_sequence".

(** What the loop of [create] does with one element and its code: the
    code is stored under 'code' and the temporal fields are derived as
    for a new record. *)
Definition prepare (env : Env) (numbered : string * dict) : result dict :=
  update_dates env (<["code" := VStr numbered.1]> numbered.2) None.

Section WithSequence.

(** The numbering sequence of the framework: [sequence.get()] returns
    the next code and advances the sequence. *)
Variable Sequence : Type.
Variable Sequence_get : Sequence -> string * Sequence.

(** [Config(1)], the singleton [activity.configuration] record. *)
Record Configuration : Type := { activity_sequence : option Sequence }.

(** The loop [for vals in vlist] of [create], on the copies made by
    [vlist = [x.copy() for x in vlist]]; [vals.update(d)] is the union that
    prefers the entries of [d]. *)
Fixpoint create_loop (env : Env) (sequence : Sequence) (vlist : list dict)
  : result (list dict * Sequence) :=
  match vlist with
  | [] => Ok ([], sequence)
  | vals :: vlist' =>
      let '(code, sequence) := Sequence_get sequence in
      let vals := <["code" := VStr code]> vals in
      derived ← update_dates env vals None;
      let vals := derived ∪ vals in
      '(rest, sequence) ← create_loop env sequence vlist';
      Ok (vals :: rest, sequence)
  end.

(** [Activity.create], up to the call of [super().create]: the outcome
    is the list of values handed to the framework, with the sequence as
    the loop left it. *)
Definition create (env : Env) (config : Configuration) (vlist : list dict)
  : result (list dict * Sequence) :=
  match activity_sequence config with
  | None => Raise (UserError no_activity_sequence)
  | Some sequence => create_loop env sequence vlist
  end.

(** The codes that [n] successive calls of [sequence.get()] return. *)
Fixpoint codes (sequence : Sequence) (n : nat) : list string :=
  match n with
  | O => []
  | S n' =>
      let '(code, sequence) := Sequence_get sequence in
      code :: codes sequence n'
  end.

(** The sequence after [n] calls of [sequence.get()]. *)
Fixpoint advance (sequence : Sequence) (n : nat) : Sequence :=
  match n with
  | O => sequence
  | S n' => advance (snd (Sequence_get sequence)) n'
  end.

End WithSequence.

Arguments activity_sequence {Sequence} _.
Arguments create {Sequence} _ _ _ _.
Arguments create_loop {Sequence} _ _ _ _.
Arguments codes {Sequence} _ _ _.
Arguments advance {Sequence} _ _ _.

End Create.

(** ** Party *)

Module Party.

(** Python dictionaries are objects: a heap maps references to their
    contents, and a computation threads the heap. *)
Abbreviation ref := nat.
Abbreviation heap := (gmap nat dict).
Definition State (A : Type) : Type := heap -> A * heap.

Definition ret {A : Type} (a : A) : State A := fun h => (a, h).
Definition bind {A B : Type} (m : State A) (f : A -> State B) : State B :=
  fun h => let '(a, h') := m h in f a h'.

(** [{}] and [d.copy()] allocate a new dictionary. *)
Definition alloc (d : dict) : State ref :=
  fun h => let l := fresh (dom h) in (l, <[l := d]> h).

(** The contents of a dictionary; the references the code holds are live,
    a dangling one would read as empty. *)
Definition read (l : ref) : State dict :=
  fun h => (default ∅ (h !! l), h).

(** [d.setdefault(k, v)], in place. *)
Definition setdefault (l : ref) (k : string) (v : value) : State unit :=
  fun h =>
    (tt, alter (fun d : dict => match d !! k with
                                | Some _ => d
                                | None => <[k := v]> d
                                end) l h).

Section WithModelStorage.

(** [super().copy(parties, default=default)]: the framework's copy, which
    reads the defaults and returns the values of the new records. *)
Variable super_copy : list dict -> dict -> list dict.

(** [Party.copy]. *)
Definition copy (parties : list dict) (default : option ref)
  : State (list dict) :=
  bind (match default with
        | None => alloc ∅
        | Some l => ret l
        end) (fun default =>
  bind (read default) (fun contents =>
  bind (alloc contents) (fun default =>
  bind (setdefault default "activities" VNone) (fun _ =>
  bind (read default) (fun contents =>
  ret (super_copy parties contents)))))).

End WithModelStorage.

End Party.

(** ** The specification's wording

    Definitions that follow the sentences of the specification rather than
    the code, for comparison with the embedded functions. *)

Module Claimed.

(** Date and time-of-day "derived from the start timestamp by converting
    UTC to company-local time", midnight read as "time absent". *)
Definition date_time_of_start (env : Env) (start : Z) : result (value * value) :=
  local ← Temporal.utc_to_local env start;
  Ok (VDate (Datetime.date local),
      if Datetime.time local =? Datetime.midnight then VNone
      else VTime (Datetime.time local)).

(** "Return this derived set immediately": date and time from the start
    timestamp, "duration = end - start when both start and end are
    present, else duration = absent", and nothing else. *)
Definition short_circuit (values : dict) (start : Z) : dict :=
  <["duration" := match values !! "dtend" with
                  | Some (VDateTime e) => VTimeDelta (Datetime.diff e start)
                  | _ => VNone
                  end]>
    (<["time" := VTime (Datetime.time start)]>
       (<["date" := VDate (Datetime.date start)]> values)).

(** "Type's colour if the flag is set and a type colour exists; otherwise
    employee's colour if set; otherwise a fixed default colour." *)
Definition base_color (env : Env) (self : Activity) : string :=
  let type_color := activity_type self ≫= type_color in
  let employee_color := employee self ≫= employee_color in
  if context_activity_color_type env && Calendar.has_color type_color
  then default Color._COLOR type_color
  else if Calendar.has_color employee_color
       then default Color._COLOR employee_color
       else Color._COLOR.

(** "The other same-day activities' total duration for that employee":
    the rows of the same employee and date, the activity's own row left
    out. *)
Definition others_total (table : list BusyHours.Row) (employee_id date self_id : Z)
  : Z :=
  foldr Z.add 0
    (default 0 ∘ BusyHours.row_duration <$>
      List.filter (fun r =>
                bool_decide (BusyHours.row_employee r = employee_id)
                && bool_decide (BusyHours.row_date r = date)
                && negb (bool_decide (BusyHours.row_id r = self_id)))
             table).

(** "If both time-of-day and duration are set, end timestamp = start +
    duration; otherwise end timestamp is absent", read on the resolved
    time-of-day and duration and on the derived mapping. *)
Definition end_timestamp_law (time duration : value) (derived : dict) : Prop :=
  match time, duration with
  | VTime _, VTimeDelta td =>
      ∃ s e, derived !! "dtstart" = Some (VDateTime s)
             ∧ derived !! "dtend" = Some (VDateTime e)
             ∧ Datetime.diff e s = td
  | _, _ => derived !! "dtend" = Some VNone
  end.

End Claimed.

(** ** Sample data *)

Module Sample.

(** A zone one hour ahead of UTC all year. *)
Definition plus_one_hour : tzinfo :=
  {| localize_utcoffset := fun _ => 3600000000 |}.

(** 2024-01-01 is day 738886; the clock reads 10:00 that day. *)
Definition new_year : Z := 738886.

Definition env_no_zone : Env :=
  {| context_company := None;
     context_activity_color_type := false;
     clock_now := Datetime.at_ new_year 10 0 |}.

Definition env_plus_one : Env :=
  {| context_company := Some {| company_timezone := Some plus_one_hour |};
     context_activity_color_type := false;
     clock_now := Datetime.at_ new_year 10 0 |}.

Definition env_type_color : Env :=
  {| context_company := None;
     context_activity_color_type := true;
     clock_now := Datetime.at_ new_year 10 0 |}.

Definition hour : Z := 3600000000.

Definition activity (i : Z) (type : option ActivityType) (who : option Employee)
    (start : option Z) (st : string) : Activity :=
  {| id := i; activity_type := type; employee := who;
     date := Some new_year; time := None; duration := Some hour;
     dtstart := start; state := st |}.

Definition alice : Employee := {| employee_id := 7; employee_color := Some "#112233" |}.
Definition plain : Employee := {| employee_id := 8; employee_color := None |}.
Definition colourless : ActivityType := {| type_color := None |}.

(** An update that sets date, time-of-day 10:00 and a one-hour duration. *)
Definition timed_update : dict :=
  {[ "date" := VDate new_year; "time" := VTime (10 * hour);
     "duration" := VTimeDelta hour ]}.

(** A framework copy that writes the defaults over the fields of each
    party, and a party that has activities. *)
Definition override_copy (parties : list dict) (default : dict) : list dict :=
  (fun party => default ∪ party) <$> parties.

Definition ann : dict :=
  {[ "name" := VStr "Ann"; "activities" := VStr "1,2" ]}.

(** Three rows of the activity table on 2024-01-01: two of employee 7,
    one of employee 8 without duration. *)
Definition table : list BusyHours.Row :=
  [ {| BusyHours.row_id := 1; BusyHours.row_employee := 7;
       BusyHours.row_date := new_year; BusyHours.row_duration := Some hour |};
    {| BusyHours.row_id := 2; BusyHours.row_employee := 7;
       BusyHours.row_date := new_year; BusyHours.row_duration := Some (2 * hour) |};
    {| BusyHours.row_id := 3; BusyHours.row_employee := 8;
       BusyHours.row_date := new_year; BusyHours.row_duration := None |} ].

(** A sequence that numbers from its counter. *)
Definition counter_get (n : nat) : string * nat :=
  (pretty.pretty n, S n).

End Sample.

(** ** Writing *)

Module Write.
Import Temporal.

(** The arguments of [write] come in pairs, a list of records and the
    values to write on them; [zip(actions, actions)] on the shared iterator
    forms the pairs. *)
Abbreviation action := (list Activity * dict)%type.

(** The inner loop [for activity in activities]: two arguments are
    appended per record, the record alone and its own derived values. *)
Definition write_records (env : Env) (activities : list Activity) (values : dict)
  : result (list action) :=
  mapM (fun activity =>
          derived ← update_dates env values (Some activity);
          Ok ([activity], derived)) activities.

(** [Activity.write], up to the call of [super().write]: the outcome is
    the argument list handed to the framework. *)
Definition write (env : Env) (args : list action) : result (list action) :=
  @List.concat action <$>
    mapM (fun '(activities, values) => write_records env activities values) args.

End Write.

(** ** Registration *)

Module Register.

(** A row of the activity table when [__register__] runs, after
    [super().__register__] has added the columns that were missing (their
    value is NULL). *)
Record Row : Type := {
  dtstart : option Z;
  dtend : option Z;
  date : option Z;
  time : option Z;
  duration : option Z;
  state : string
}.

(** The first update of the migration from 5.2: date and time are the
    casts of the start timestamp, on every row. *)
Definition set_date_time (r : Row) : Row :=
  {| dtstart := dtstart r; dtend := dtend r;
     date := Datetime.date <$> dtstart r;
     time := Datetime.time <$> dtstart r;
     duration := duration r; state := state r |}.

(** The second: duration is end - start on the rows whose end timestamp is
    not NULL; the difference with a NULL start is NULL. *)
Definition set_duration (r : Row) : Row :=
  match dtend r with
  | Some e =>
      {| dtstart := dtstart r; dtend := dtend r; date := date r; time := time r;
         duration := (fun s => Datetime.diff e s) <$> dtstart r;
         state := state r |}
  | None => r
  end.

(** [UPDATE ... SET state = new WHERE state = old]. *)
Definition rename_state (old new : string) (r : Row) : Row :=
  if String.eqb (state r) old then
    {| dtstart := dtstart r; dtend := dtend r; date := date r; time := time r;
       duration := duration r; state := new |}
  else r.

(** [Activity.__register__] on the rows of the table. [table_exist] and
    [date_column_exist] are what the table handler answered before the
    columns were added. *)
Definition register (table_exist date_column_exist : bool) (table : list Row)
  : list Row :=
  let date_exists := if table_exist then date_column_exist else true in
  let table :=
    if negb date_exists
    then set_duration <$> (set_date_time <$> table)
    else table in
  let table := rename_state "held" "done" <$> table in
  let table := rename_state "not_held" "canceled" <$> table in
  rename_state "canceled" "cancelled" <$> table.

(** The state names of earlier versions. *)
Definition legacy_states : list string := ["held"; "not_held"; "canceled"].

End Register.

(** ** Checks by enumeration *)

Module Checks.
Import Color.

(** For one byte: ['%02x'] prints two characters, the first of which is
    not '#', and [int(_, 16)] reads the byte back from them. *)
Definition hex_byte_ok (n : nat) : bool :=
  match format_02x (Z.of_nat n) with
  | String c1 (String c2 EmptyString) =>
      negb (Ascii.eqb c1 "#")
      && match int16 (String c1 (String c2 EmptyString)) with
         | Ok v => v =? Z.of_nat n
         | Raise _ => false
         end
  | _ => false
  end.

End Checks.

(** ** More sample data *)

Module Fixtures.

(** What [update_dates] derives from [Sample.timed_update] in the company
    one hour ahead of UTC: 10:00 local is 09:00 UTC, and the end one hour
    later. *)
Definition timed_derived : dict :=
  <["dtend" := VDateTime (Datetime.at_ Sample.new_year 10 0)]>
    (<["dtstart" := VDateTime (Datetime.at_ Sample.new_year 9 0)]>
       Sample.timed_update).

(** An update that only renames the activity. *)
Definition renaming : dict := {[ "subject" := VStr "Call" ]}.

(** An activity starting at 09:00 UTC. *)
Definition morning : Activity :=
  Sample.activity 1 None (Some Sample.alice)
    (Some (Datetime.at_ Sample.new_year 9 0)) "planned".

(** A row of a 5.2 table, held from 09:00 to 11:00, and what registration
    makes of it. *)
Definition old_row : Register.Row :=
  {| Register.dtstart := Some (Datetime.at_ Sample.new_year 9 0);
     Register.dtend := Some (Datetime.at_ Sample.new_year 11 0);
     Register.date := None; Register.time := None;
     Register.duration := None; Register.state := "held" |}.

Definition migrated_row : Register.Row :=
  {| Register.dtstart := Some (Datetime.at_ Sample.new_year 9 0);
     Register.dtend := Some (Datetime.at_ Sample.new_year 11 0);
     Register.date := Some Sample.new_year;
     Register.time := Some (9 * Sample.hour);
     Register.duration := Some (2 * Sample.hour);
     Register.state := "done" |}.

End Fixtures.

(** * Properties *)

(** ** Temporal derivation *)

Section TemporalFacts.
Import Temporal.

Lemma truthy_datetime (v : value) (start : Z) :
  v = VDateTime start -> truthy v = true.
Proof. intros ->. reflexivity. Qed.

(** The first block with a start timestamp and no date in the update. *)
Lemma from_timestamps_start (values : dict) (record : option Activity) (start : Z) :
  values !! "date" = None ->
  values !! "dtstart" = Some (VDateTime start) ->
  from_timestamps values record =
    let derived := <["time" := VTime (Datetime.time start)]>
                     (<["date" := VDate (Datetime.date start)]> values) in
    match values !! "dtend" with
    | Some (VDateTime e) =>
        Ok (Return (<["duration" := VTimeDelta (Datetime.diff e start)]> derived))
    | Some dtend =>
        if truthy dtend then Raise TypeError
        else Ok (Return (<["duration" := VNone]> derived))
    | None => Ok (Continue derived)
    end.
Proof.
  intros Hdate Hstart. unfold from_timestamps.
  rewrite Hdate, Hstart. cbn.
  rewrite !lookup_insert_ne by done.
  destruct (values !! "dtend") as [[| | | td | |s]|]; cbn; try reflexivity;
    destruct (negb _); reflexivity.
Qed.

(** The form handler converts to local time and reads local midnight as
    "no time": the derivation the specification describes. *)
Lemma on_change_dtstart_local (env : Env) (self : Activity) (start : Z) :
  dtstart self = Some start ->
  on_change_dtstart env self =
    ('(d, t) ← Claimed.date_time_of_start env start;
     Ok (set_date_time self
           (match d with VDate d => Some d | _ => None end)
           (match t with VTime t => Some t | _ => None end))).
Proof.
  intros Hstart. unfold on_change_dtstart, Claimed.date_time_of_start.
  rewrite Hstart. destruct (utc_to_local env start) as [dt|e]; cbn; [|reflexivity].
  destruct (Datetime.time dt =? Datetime.midnight); reflexivity.
Qed.

(** C1. At a start timestamp of 23:00 UTC on 2024-01-01, in a company one
    hour ahead of UTC, and with an end timestamp entry so that the first
    block returns, [update_dates] stores the UTC date and the UTC
    time-of-day 23:00, where the claim asks for the local date 2024-01-02
    and, local time being midnight, no time-of-day. The form handler
    [on_change_dtstart] computes exactly that on the same timestamp. *)
Theorem update_dates_keeps_utc_date_time :
  let start := Datetime.at_ Sample.new_year 23 0 in
  let values : dict := {[ "dtstart" := VDateTime start; "dtend" := VNone ]} in
  update_dates Sample.env_plus_one values None
    = Ok (<["duration" := VNone]>
            (<["time" := VTime (23 * Sample.hour)]>
               (<["date" := VDate Sample.new_year]> values)))
  /\ Claimed.date_time_of_start Sample.env_plus_one start
       = Ok (VDate (Sample.new_year + 1), VNone)
  /\ on_change_dtstart Sample.env_plus_one
       (Sample.activity 1 None None (Some start) "planned")
       = Ok (set_date_time (Sample.activity 1 None None (Some start) "planned")
               (Some (Sample.new_year + 1)) None).
Proof.
  repeat split; vm_compute; reflexivity.
Qed.

(** C2, as stated, fails: an update that sets only the start timestamp
    (23:30 UTC on 2024-01-01, company one hour ahead of UTC, new record)
    is not returned from the first block. The later steps run: the start
    timestamp is recomputed by the local-to-UTC conversion (22:30) and an
    end timestamp entry is added; no duration entry is set. *)
Lemma update_dates_start_only_continues :
  let start := Datetime.at_ Sample.new_year 23 30 in
  let values : dict := {[ "dtstart" := VDateTime start ]} in
  update_dates Sample.env_plus_one values None
    = Ok (<["dtend" := VNone]>
            (<["dtstart" := VDateTime (Datetime.at_ Sample.new_year 22 30)]>
               (<["time" := VTime (Datetime.time start)]>
                  (<["date" := VDate Sample.new_year]> values))))
  /\ update_dates Sample.env_plus_one values None
       <> Ok (Claimed.short_circuit values start).
Proof.
  split; [vm_compute; reflexivity|].
  intros H.
  apply (f_equal (fun r => match r with Ok m => m !! "dtend" | Raise _ => None end)) in H.
  vm_compute in H. discriminate H.
Qed.

(** C2, amended. When the update sets a start timestamp and no date, the
    outcome is decided by the end timestamp entry: if the update has one,
    [update_dates] returns at once the update extended with the date and
    time-of-day of the start timestamp and with duration = end - start
    (end present) or duration absent (end absent), whatever the record,
    the clock and the time zone; if the update has none, the later steps
    run on the extended update. *)
Theorem update_dates_short_circuit (env : Env) (values : dict)
    (record : option Activity) (start : Z) :
  values !! "date" = None ->
  values !! "dtstart" = Some (VDateTime start) ->
  let derived := <["time" := VTime (Datetime.time start)]>
                   (<["date" := VDate (Datetime.date start)]> values) in
  update_dates env values record =
    match values !! "dtend" with
    | Some (VDateTime e) =>
        Ok (<["duration" := VTimeDelta (Datetime.diff e start)]> derived)
    | Some dtend =>
        if truthy dtend then Raise TypeError
        else Ok (<["duration" := VNone]> derived)
    | None => to_timestamps env (fallback derived record)
    end.
Proof.
  intros Hdate Hstart derived. unfold update_dates.
  rewrite (from_timestamps_start values record start Hdate Hstart).
  cbv zeta. fold derived.
  destruct (values !! "dtend") as [[| | | td | |s]|]; cbn; try reflexivity;
    destruct (negb _); reflexivity.
Qed.

Lemma update_dates_short_circuit_witness :
  let start := Datetime.at_ Sample.new_year 9 0 in
  let values : dict :=
    {[ "dtstart" := VDateTime start;
       "dtend" := VDateTime (Datetime.at_ Sample.new_year 11 0) ]} in
  update_dates Sample.env_plus_one values None
    = Ok (<["duration" := VTimeDelta (2 * Sample.hour)]>
            (<["time" := VTime (9 * Sample.hour)]>
               (<["date" := VDate Sample.new_year]> values))).
Proof.
  cbv zeta.
  rewrite (update_dates_short_circuit Sample.env_plus_one _ None
             (Datetime.at_ Sample.new_year 9 0)); [|reflexivity|reflexivity].
  vm_compute. reflexivity.
Defined.

(** The later steps on a resolved mapping with a date: the start
    timestamp is the UTC conversion of date and time-of-day, the latter
    being the wall clock's when the mapping has none; the end timestamp
    is start + duration for a non-zero duration. *)
Lemma to_timestamps_dated (env : Env) (resolved : dict) (d t start : Z) :
  get resolved "date" = VDate d ->
  (get resolved "time" = VTime t
   \/ get resolved "time" = VNone /\ t = Datetime.time (clock_now env)) ->
  local_to_utc env (Datetime.combine d t) = Ok start ->
  to_timestamps env resolved =
    (dtend ← match get resolved "duration" with
             | VNone => Ok VNone
             | VTimeDelta td =>
                 if td =? 0 then Ok VNone
                 else VDateTime <$> Datetime.add start td
             | VStr s => if String.eqb s "" then Ok VNone else Raise TypeError
             | _ => Raise TypeError
             end;
     Ok (<["dtend" := dtend]> (<["dtstart" := VDateTime start]> resolved))).
Proof.
  intros Hdate Htime Hstart. unfold to_timestamps.
  rewrite Hdate. cbn [truthy negb].
  assert ((if negb (truthy (get resolved "time"))
           then VTime (Datetime.time (clock_now env))
           else get resolved "time") = VTime t) as ->.
  { destruct Htime as [-> | [-> ->]]; reflexivity. }
  cbn. rewrite Hstart. cbn.
  destruct (get resolved "duration") as [| | | td | |s]; cbn; try reflexivity.
  - destruct (td =? 0); reflexivity.
  - destruct (String.eqb s ""); reflexivity.
Qed.

(** C5, as stated, fails twice at a new record dated 2024-01-01, with no
    company time zone and the clock at 10:00. With no time-of-day and a
    duration of one hour, the end timestamp is present (11:00), the
    time-of-day having been replaced by the clock's. With time-of-day
    10:00 and a duration of zero, the end timestamp is absent although
    both are present. *)
Lemma update_dates_end_timestamp_counterexample :
  let untimed : dict :=
    {[ "date" := VDate Sample.new_year; "duration" := VTimeDelta Sample.hour ]} in
  let instant : dict :=
    {[ "date" := VDate Sample.new_year; "time" := VTime (10 * Sample.hour);
       "duration" := VTimeDelta 0 ]} in
  (update_dates Sample.env_no_zone untimed None
     = Ok (<["dtend" := VDateTime (Datetime.at_ Sample.new_year 11 0)]>
             (<["dtstart" := VDateTime (Datetime.at_ Sample.new_year 10 0)]> untimed))
   /\ ~ (forall derived, update_dates Sample.env_no_zone untimed None = Ok derived ->
         Claimed.end_timestamp_law (get untimed "time") (get untimed "duration") derived))
  /\ (update_dates Sample.env_no_zone instant None
        = Ok (<["dtend" := VNone]>
                (<["dtstart" := VDateTime (Datetime.at_ Sample.new_year 10 0)]> instant))
      /\ ~ (forall derived, update_dates Sample.env_no_zone instant None = Ok derived ->
            Claimed.end_timestamp_law (get instant "time") (get instant "duration") derived)).
Proof.
  cbv zeta. split; split; try (vm_compute; reflexivity).
  - intros H. specialize (H _ eq_refl). vm_compute in H. discriminate H.
  - intros H. specialize (H _ eq_refl).
    destruct H as (s & e & _ & He & _). vm_compute in He. discriminate He.
Qed.

(** C5, amended. Let the resolved mapping (the update after the first
    block and the fallback on the record) have a date, and let start be
    the UTC conversion of that date combined with the time-of-day, which
    is the resolved one or, when that is absent, the wall clock's. Then
    the derived start timestamp is start and:
    - for a duration that is present and not zero, with start + duration
      a representable datetime, the derived end timestamp is present and
      end - start is the duration exactly;
    - for an absent duration the derived end timestamp is absent.
    In both cases the other entries are those of the resolved mapping. *)
Theorem update_dates_end_timestamp (env : Env) (values : dict)
    (record : option Activity) (v0 resolved : dict) (d t start : Z) :
  from_timestamps values record = Ok (Continue v0) ->
  resolved = fallback v0 record ->
  get resolved "date" = VDate d ->
  (get resolved "time" = VTime t
   \/ get resolved "time" = VNone /\ t = Datetime.time (clock_now env)) ->
  local_to_utc env (Datetime.combine d t) = Ok start ->
  (forall td, get resolved "duration" = VTimeDelta td -> td <> 0 ->
     Datetime.in_range (start + td) = true ->
     exists out e,
       update_dates env values record = Ok out
       /\ out !! "dtstart" = Some (VDateTime start)
       /\ out !! "dtend" = Some (VDateTime e)
       /\ Datetime.diff e start = td
       /\ forall k, k <> "dtstart" -> k <> "dtend" -> out !! k = resolved !! k)
  /\ (get resolved "duration" = VNone ->
      exists out,
        update_dates env values record = Ok out
        /\ out !! "dtstart" = Some (VDateTime start)
        /\ out !! "dtend" = Some VNone
        /\ forall k, k <> "dtstart" -> k <> "dtend" -> out !! k = resolved !! k).
Proof.
  intros Hfrom -> Hdate Htime Hstart.
  unfold update_dates. rewrite Hfrom. cbn.
  rewrite (to_timestamps_dated env _ d t start Hdate Htime Hstart).
  split.
  - intros td -> Hnz Hrange.
    destruct (Z.eqb_spec td 0) as [|_]; [contradiction|].
    unfold Datetime.add. rewrite Hrange. cbn.
    eexists _, (start + td). split; [reflexivity|].
    split; [by rewrite lookup_insert_ne, lookup_insert_eq|].
    split; [by rewrite lookup_insert_eq|].
    split; [unfold Datetime.diff; lia|].
    intros k Hs He. by rewrite !lookup_insert_ne.
  - intros ->. cbn.
    eexists. split; [reflexivity|].
    split; [by rewrite lookup_insert_ne, lookup_insert_eq|].
    split; [by rewrite lookup_insert_eq|].
    intros k Hs He. by rewrite !lookup_insert_ne.
Qed.

Lemma update_dates_end_timestamp_witness :
  exists out e,
    update_dates Sample.env_plus_one Sample.timed_update None = Ok out
    /\ out !! "dtstart" = Some (VDateTime (Datetime.at_ Sample.new_year 9 0))
    /\ out !! "dtend" = Some (VDateTime e)
    /\ Datetime.diff e (Datetime.at_ Sample.new_year 9 0) = Sample.hour
    /\ forall k, k <> "dtstart" -> k <> "dtend" ->
                 out !! k = Sample.timed_update !! k.
Proof.
  apply (proj1 (update_dates_end_timestamp Sample.env_plus_one
                  Sample.timed_update None Sample.timed_update
                  Sample.timed_update Sample.new_year (10 * Sample.hour)
                  (Datetime.at_ Sample.new_year 9 0)
                  eq_refl eq_refl eq_refl (or_introl eq_refl) eq_refl)
               Sample.hour eq_refl).
  - discriminate.
  - reflexivity.
Defined.

End TemporalFacts.

(** ** Colours *)

Section ColorFacts.
Import Color Calendar.

Lemma digit16_bound (c : ascii) (d : Z) :
  digit16 c = Some d -> 0 <= d <= 15.
Proof.
  unfold digit16. intros H.
  repeat match type of H with
         | (if ?b then _ else _) = _ => destruct b eqn:?
         end; inversion H; subst; lia.
Qed.

Lemma scan16_bound (s : string) :
  forall acc digits prev n digits' rest,
    scan16 s acc digits prev = Some (n, digits', rest) ->
    0 <= acc ->
    0 <= n < (acc + 1) * 16 ^ Z.of_nat (String.length s).
Proof.
  induction s as [|c s IH]; intros acc digits prev n digits' rest H Hacc.
  - cbn in H. destruct prev; inversion H; subst. cbn. lia.
  - cbn [scan16] in H.
    replace (Z.of_nat (String.length (String c s)))
      with (Z.of_nat (String.length s) + 1) by (cbn [String.length]; lia).
    rewrite Z.pow_add_r by lia.
    assert (0 < 16 ^ Z.of_nat (String.length s)) as Hpow
      by (apply Z.pow_pos_nonneg; lia).
    destruct (Ascii.eqb c "_").
    + destruct prev; [discriminate|].
      apply IH in H; [|lia]. nia.
    + destruct (digit16 c) as [d|] eqn:Hd.
      * apply digit16_bound in Hd. apply IH in H; [|lia]. nia.
      * destruct prev; inversion H; subst. nia.
Qed.

Lemma skip_space_length (s : string) :
  (String.length (skip_space s) <= String.length s)%nat.
Proof.
  induction s as [|c s IH]; cbn; [lia|].
  destruct (isspace c); cbn; lia.
Qed.

Lemma strip_sign_length (s : string) :
  (String.length (strip_sign s).2 <= String.length s)%nat.
Proof.
  destruct s as [|c s]; cbn; [lia|].
  destruct (Ascii.eqb c "+"); [cbn; lia|].
  destruct (Ascii.eqb c "-"); cbn; lia.
Qed.

Lemma strip_prefix_length (s : string) :
  (String.length (strip_prefix s) <= String.length s)%nat.
Proof.
  destruct s as [|c0 [|c1 s]]; cbn; try lia.
  destruct (Ascii.eqb c0 "0" && (Ascii.eqb c1 "x" || Ascii.eqb c1 "X")); cbn; [|lia].
  destruct s as [|c2 s]; cbn; [lia|].
  destruct (Ascii.eqb c2 "_"); cbn; lia.
Qed.

(** A parsed number has fewer hexadecimal digits than the string has
    characters. *)
Lemma int16_bound (s : string) (v : Z) :
  int16 s = Ok v -> Z.abs v < 16 ^ Z.of_nat (String.length s).
Proof.
  unfold int16. intros H.
  pose proof (skip_space_length s) as H1.
  pose proof (strip_sign_length (skip_space s)) as H2.
  destruct (strip_sign (skip_space s)) as [negative s1]. cbn [snd] in H2.
  pose proof (strip_prefix_length s1) as H3.
  destruct (starts_with_underscore (strip_prefix s1)); [discriminate|].
  destruct (scan16 (strip_prefix s1) 0 0%nat false)
    as [[[n [|digits]] rest]|] eqn:Hscan; try discriminate.
  destruct (skip_space rest); [|discriminate].
  apply scan16_bound in Hscan; [|lia].
  assert (16 ^ Z.of_nat (String.length (strip_prefix s1))
          <= 16 ^ Z.of_nat (String.length s)) by (apply Z.pow_le_mono_r; lia).
  destruct negative; inversion H; subst; lia.
Qed.

Lemma substring_length (n m : nat) (s : string) :
  (String.length (substring n m s) <= m)%nat.
Proof.
  revert n m. induction s as [|c s IH]; intros [|n] [|m]; cbn; try lia.
  - specialize (IH 0%nat m). lia.
  - specialize (IH n 0%nat). lia.
  - specialize (IH n (S m)). lia.
Qed.

(** Whatever the string, the channels of [RGB] are within one byte in
    absolute value. *)
Lemma RGB_channels (color : string) :
  let '(r, g, b) := RGB (CStr color) in
  channel_ok r /\ channel_ok g /\ channel_ok b.
Proof.
  unfold RGB, channel_ok.
  assert (forall i s v, int16 (substring i 2 s) = Ok v -> -255 <= v <= 255) as Hb.
  { intros i s v Hv. apply int16_bound in Hv.
    pose proof (substring_length i 2 s).
    assert (16 ^ Z.of_nat (String.length (substring i 2 s)) <= 16 ^ 2)
      by (apply Z.pow_le_mono_r; lia).
    lia. }
  destruct (int16 (substring 0 2 _)) as [r|] eqn:Hr; [|cbn; lia].
  destruct (int16 (substring 2 2 _)) as [g|] eqn:Hg; [|cbn; lia].
  destruct (int16 (substring 4 2 _)) as [b|] eqn:Hbl; [|cbn; lia].
  apply Hb in Hr, Hg, Hbl. lia.
Qed.

(** On the range that channels allow, the floating-point product
    truncates to the exact integer part of eight tenths. *)
Lemma fade_increment_floor (n : Z) :
  0 <= n <= 510 -> fade_increment n = Ok (8 * n / 10).
Proof.
  intros Hn.
  assert (forallb fade_increment_exact (seq 0 511) = true) as Hall
    by (vm_compute; reflexivity).
  rewrite forallb_forall in Hall.
  specialize (Hall (Z.to_nat n)).
  unfold fade_increment_exact in Hall.
  rewrite Z2Nat.id in Hall by lia.
  destruct (fade_increment n) as [k|e].
  - f_equal. apply Z.eqb_eq, Hall, in_seq. lia.
  - exfalso. assert (false = true) by (apply Hall, in_seq; lia). discriminate.
Qed.

Lemma gray_bound (value : Z * Z * Z) :
  (let '(r, g, b) := value in channel_ok r /\ channel_ok g /\ channel_ok b) ->
  0 <= 255 - gray value <= 510.
Proof.
  destruct value as [[r g] b]. unfold channel_ok, gray. intros (Hr & Hg & Hb).
  assert (-255 <= (r + g + b) / 3 <= 255); [|lia].
  split; [apply Z.div_le_lower_bound | apply Z.div_le_upper_bound]; lia.
Qed.

(** Fading a parsed colour never raises, and adds the exact integer part
    of 0.8 * (255 - gray). *)
Lemma increase_ratio_parsed (color : string) :
  let value := RGB (CStr color) in
  increase_ratio value ratio_0_8
    = Ok (increase value (8 * (255 - gray value) / 10)).
Proof.
  cbv zeta. unfold increase_ratio.
  pose proof (gray_bound _ (RGB_channels color)) as Hg.
  pose proof (fade_increment_floor _ Hg) as Hf.
  unfold fade_increment in Hf.
  destruct (float_of_int _) as [x|e]; cbn in *; [|discriminate].
  rewrite Hf. reflexivity.
Qed.

(** C3, as stated, fails: with the "use type colour" flag set, a type
    without colour and an employee whose colour is #112233, a planned
    activity gets the default colour, not the employee's. *)
Lemma base_color_counterexample :
  let self := Sample.activity 1 (Some Sample.colourless) (Some Sample.alice)
                None "planned" in
  get_calendar_background_color Sample.env_type_color self = Ok "#ABD6E3"
  /\ base_color Sample.env_type_color self = "#ABD6E3"
  /\ Claimed.base_color Sample.env_type_color self = "#112233".
Proof. repeat split. Qed.

(** C3, amended. The context flag alone selects whose colour is looked
    at: with the flag set, the base colour is the type's colour when the
    type has one and the default '#ABD6E3' otherwise; with the flag unset,
    it is the employee's colour when the employee has one and the default
    otherwise. A planned activity has this base colour as its background. *)
Theorem base_color_by_flag (env : Env) (self : Activity) :
  let chosen :=
    if context_activity_color_type env
    then activity_type self ≫= type_color
    else employee self ≫= employee_color in
  base_color env self
    = (if has_color chosen then default "#ABD6E3" chosen else "#ABD6E3")
  /\ (state self = "planned" ->
      get_calendar_background_color env self = Ok (base_color env self)).
Proof.
  cbv zeta. split.
  - unfold base_color.
    destruct (context_activity_color_type env).
    + destruct (activity_type self) as [type|]; cbn; [|reflexivity].
      destruct (has_color (type_color type)); reflexivity.
    + destruct (employee self) as [e|]; cbn; [|reflexivity].
      destruct (has_color (employee_color e)); reflexivity.
  - intros Hstate. unfold get_calendar_background_color.
    rewrite Hstate. reflexivity.
Qed.

(** C8. For an activity whose state is not 'planned', the background is
    the hexadecimal form of the base colour's channels (as [RGB] reads
    them) each increased by the integer part of 0.8 * (255 - average of
    the three channels) and clamped to [0, 255]; the binary64 computation
    of the code yields exactly that integer. A planned activity keeps its
    base colour unchanged. *)
Theorem background_color_faded (env : Env) (self : Activity) :
  (state self <> "planned" ->
   let '(r, g, b) := RGB (CStr (base_color env self)) in
   let average := (r + g + b) / 3 in
   let inc := 8 * (255 - average) / 10 in
   let clamp x := Z.max 0 (Z.min 255 x) in
   get_calendar_background_color env self
     = Ok (hex (clamp (r + inc), clamp (g + inc), clamp (b + inc))))
  /\ (state self = "planned" ->
      get_calendar_background_color env self = Ok (base_color env self)).
Proof.
  split.
  - intros Hstate.
    pose proof (increase_ratio_parsed (base_color env self)) as Hfade.
    cbv zeta in Hfade.
    unfold get_calendar_background_color.
    destruct (String.eqb_spec (state self) "planned") as [|_]; [contradiction|].
    cbn [negb]. rewrite Hfade.
    destruct (RGB (CStr (base_color env self))) as [[r g] b].
    reflexivity.
  - intros Hstate. unfold get_calendar_background_color.
    rewrite Hstate. reflexivity.
Qed.

(** The background colour is always computed. *)
Lemma background_color_total (env : Env) (self : Activity) :
  exists background, get_calendar_background_color env self = Ok background.
Proof.
  unfold get_calendar_background_color.
  destruct (negb _); [|eauto].
  rewrite increase_ratio_parsed. cbn. eauto.
Qed.

(** The string does not parse: one of its three two-character slices,
    after the leading '#' are dropped, is not a number in base 16. *)
Lemma RGB_parse_failure (color : string) :
  (exists i, In i [0; 2; 4]%nat
             /\ int16 (substring i 2 (lstrip "#" color)) = Raise ValueError) ->
  RGB (CStr color) = (67, 84, 90).
Proof.
  intros (i & Hi & Hfail). unfold RGB.
  destruct Hi as [<-|[<-|[<-|[]]]]; rewrite Hfail;
    repeat match goal with
           | |- context [match ?x with Ok _ => _ | Raise _ => _ end] => destruct x
           end; reflexivity.
Qed.

(** C9. The foreground colour is always computed: it is 'black' when the
    integer average of the three channels that [RGB] reads from the
    background colour exceeds 128 and 'white' otherwise; when the
    background does not parse, the channels are (67, 84, 90) and the
    foreground is 'white'. *)
Theorem calendar_color_contrast (env : Env) (self : Activity) :
  exists background,
    get_calendar_background_color env self = Ok background
    /\ (let '(r, g, b) := RGB (CStr background) in
        get_calendar_color env self
          = Ok (if 128 <? (r + g + b) / 3 then "black" else "white"))
    /\ ((exists i, In i [0; 2; 4]%nat
                   /\ int16 (substring i 2 (lstrip "#" background))
                      = Raise ValueError) ->
        RGB (CStr background) = (67, 84, 90)
        /\ get_calendar_color env self = Ok "white").
Proof.
  destruct (background_color_total env self) as [background Hbg].
  exists background. split; [exact Hbg|].
  unfold get_calendar_color. rewrite Hbg. cbn [mbind result_bind].
  split.
  - destruct (RGB (CStr background)) as [[r g] b]. unfold gray.
    rewrite Z.gtb_ltb. destruct (128 <? (r + g + b) / 3); reflexivity.
  - intros Hfail. rewrite (RGB_parse_failure _ Hfail). split; reflexivity.
Qed.

End ColorFacts.

(** ** Workflow *)

Section WorkflowFacts.
Import Workflow.

(** C6. The legal transitions are exactly the ordered pairs of distinct
    states among planned, done and cancelled: six pairs, every state
    leading to each of the other two and none to itself. *)
Theorem transitions_exactly_distinct_pairs :
  (forall a b : string,
      (a, b) ∈ _transitions <-> a ∈ states /\ b ∈ states /\ a <> b)
  /\ size _transitions = 6%nat.
Proof.
  split; [|vm_compute; reflexivity].
  intros a b. unfold _transitions, setup_transitions, states.
  set_unfold.
  split.
  - intros H. repeat destruct H as [H|H]; try contradiction;
      inversion H; subst; repeat split; tauto || discriminate.
  - intros (Ha & Hb & Hne).
    repeat destruct Ha as [Ha|Ha]; repeat destruct Hb as [Hb|Hb];
      try contradiction; subst; try congruence; tauto.
Qed.

End WorkflowFacts.

(** ** Creation *)

Section CreateFacts.
Import Temporal Create.

Lemma grows_refl (values : dict) : grows values values.
Proof. intros k. split; auto. Qed.

Lemma grows_trans (a b c : dict) : grows a b -> grows b c -> grows a c.
Proof.
  intros Hab Hbc k. destruct (Hab k) as [H1 H2], (Hbc k) as [H3 H4].
  split; [auto|]. intros Hk. rewrite H4, H2; auto.
Qed.

Lemma grows_insert (values : dict) (k : string) (x : value) :
  k ∈ temporal_fields -> grows values (<[k := x]> values).
Proof.
  intros Hk j. split.
  - intros Hj. destruct (decide (k = j)) as [->|Hne].
    + rewrite lookup_insert_eq. eauto.
    + by rewrite lookup_insert_ne.
  - intros Hj. apply lookup_insert_ne. intros ->. contradiction.
Qed.

Local Ltac temporal := unfold temporal_fields; set_solver.

Lemma from_timestamps_grows (values : dict) (record : option Activity) (step : flow) :
  from_timestamps values record = Ok step ->
  grows values (match step with Return v | Continue v => v end).
Proof.
  unfold from_timestamps. intros H.
  repeat case_match; simplify_eq; cbn in *; simplify_eq;
    repeat case_match; simplify_eq;
    try apply grows_refl;
    repeat (eapply grows_trans; [|apply grows_insert; temporal]);
    apply grows_refl.
Qed.

Lemma fallback_grows (values : dict) (record : option Activity) :
  grows values (fallback values record).
Proof.
  unfold fallback. destruct record as [r|]; [|apply grows_refl].
  cbn. repeat case_match;
    repeat (eapply grows_trans; [|apply grows_insert; temporal]);
    apply grows_refl.
Qed.

Lemma to_timestamps_grows (env : Env) (values out : dict) :
  to_timestamps env values = Ok out -> grows values out.
Proof.
  unfold to_timestamps. intros H.
  destruct (negb (truthy (get values "date"))); [simplify_eq; apply grows_refl|].
  repeat match type of H with
         | (?m ≫= _) = _ => destruct m; cbn in H; [|discriminate]
         end.
  simplify_eq.
  repeat (eapply grows_trans; [|apply grows_insert; temporal]).
  apply grows_refl.
Qed.

(** [update_dates] keeps every key of the update and changes nothing but
    the temporal fields. *)
Lemma update_dates_grows (env : Env) (values out : dict) (record : option Activity) :
  update_dates env values record = Ok out -> grows values out.
Proof.
  unfold update_dates. intros H.
  destruct (from_timestamps values record) as [step|] eqn:Hstep; [|discriminate].
  apply from_timestamps_grows in Hstep. cbn in H.
  destruct step as [v|v]; [by simplify_eq|].
  apply to_timestamps_grows in H.
  eauto using grows_trans, fallback_grows.
Qed.

(** The derivation raises attribute, type and overflow errors only. *)
Lemma update_dates_no_user_error (env : Env) (values : dict)
    (record : option Activity) (msg : string) :
  update_dates env values record <> Raise (UserError msg).
Proof.
  unfold update_dates, from_timestamps, to_timestamps, local_to_utc,
    Datetime.sub, Datetime.add.
  intros H.
  repeat (case_match; cbn in *; simplify_eq).
Qed.

Lemma mapM_Forall2 {A B : Type} (f : A -> result B) (xs : list A) (ys : list B) :
  mapM f xs = Ok ys -> Forall2 (fun x y => f x = Ok y) xs ys.
Proof.
  revert ys. induction xs as [|x xs IH]; intros ys H; cbn in H.
  - simplify_eq. constructor.
  - destruct (f x) as [y|] eqn:Hy; cbn in H; [|discriminate].
    destruct (mapM f xs) as [ys'|]; cbn in H; [|discriminate].
    simplify_eq. constructor; auto.
Qed.

Section WithSequence.
Context {Sequence : Type} (Sequence_get : Sequence -> string * Sequence).

(** The loop of [create] derives each element from its own code, in
    order, and stops at the first derivation that raises. *)
Lemma create_loop_mapM (env : Env) (vlist : list dict) (sequence : Sequence) :
  create_loop Sequence_get env sequence vlist =
    (fun out => (out, advance Sequence_get sequence (length vlist))) <$>
      mapM (prepare env)
           (zip (codes Sequence_get sequence (length vlist)) vlist).
Proof.
  revert sequence. induction vlist as [|vals vlist IH]; intros sequence.
  - reflexivity.
  - cbn [create_loop codes advance length zip zip_with mapM].
    destruct (Sequence_get sequence) as [code sequence'] eqn:Hget.
    cbn [snd zip_with mapM].
    change (update_dates env (<["code" := VStr code]> vals) None)
      with (prepare env (code, vals)).
    destruct (prepare env (code, vals)) as [derived|e] eqn:Hd; cbn; [|reflexivity].
    rewrite IH.
    destruct (mapM _ _) as [rest|e]; cbn; [|reflexivity].
    do 2 f_equal. f_equal.
    apply update_dates_grows in Hd. cbn [fst snd] in Hd.
    apply map_eq. intros k. rewrite lookup_union.
    destruct (Hd k) as [Hsome _].
    destruct (<["code" := VStr code]> vals !! k) as [x|] eqn:Hx.
    + destruct Hsome as [y ->]; eauto.
    + destruct (derived !! k); reflexivity.
Qed.

(** C7. [create] raises the configuration error
    'activity.no_activity_sequence' if and only if the configuration has
    no activity sequence. With a sequence, the values handed to the
    framework's create are, element by element, [update_dates] applied
    to the given values with 'code' set to the next code of the
    sequence ([prepare]; the first derivation that raises aborts the
    creation);
    and each created record carries under 'code' the code generated for
    it. *)
Theorem create_numbers_and_derives (env : Env)
    (config : Configuration Sequence) (vlist : list dict) :
  (create Sequence_get env config vlist = Raise (UserError no_activity_sequence)
   <-> activity_sequence config = None)
  /\ (forall sequence, activity_sequence config = Some sequence ->
      create Sequence_get env config vlist =
        (fun out => (out, advance Sequence_get sequence (length vlist))) <$>
          mapM (prepare env)
               (zip (codes Sequence_get sequence (length vlist)) vlist))
  /\ (forall out sequence',
      create Sequence_get env config vlist = Ok (out, sequence') ->
      exists sequence,
        activity_sequence config = Some sequence
        /\ length out = length vlist
        /\ forall i vals, out !! i = Some vals ->
           exists code,
             codes Sequence_get sequence (length vlist) !! i = Some code
             /\ vals !! "code" = Some (VStr code)).
Proof.
  unfold create.
  destruct (activity_sequence config) as [sequence|].
  - rewrite create_loop_mapM.
    destruct (mapM (prepare env) _) as [out|e] eqn:Hmap; cbn.
    + split; [split; discriminate|].
      split; [intros ? [= <-]; rewrite Hmap; reflexivity|].
      intros out' sequence' [= <- <-]. exists sequence.
      split; [reflexivity|].
      apply mapM_Forall2 in Hmap.
      pose proof (Forall2_length _ _ _ Hmap) as Hlen.
      assert (length (codes Sequence_get sequence (length vlist)) = length vlist)
        as Hcodes.
      { clear. generalize (length vlist). intros n. revert sequence.
        induction n as [|n IH]; intros sequence; cbn; [reflexivity|].
        destruct (Sequence_get sequence). cbn. by rewrite IH. }
      rewrite length_zip_with in Hlen.
      split; [lia|].
      intros i vals Hi.
      destruct (Forall2_lookup_r _ _ _ _ _ Hmap Hi) as ([code v] & Hzip & Hprep).
      apply lookup_zip_with_Some in Hzip.
      destruct Hzip as (c & v' & [= <- <-] & Hc & _).
      exists code. split; [exact Hc|].
      unfold prepare in Hprep. cbn [fst snd] in Hprep.
      apply update_dates_grows in Hprep.
      destruct (Hprep "code") as [_ ->].
      * apply lookup_insert_eq.
      * unfold temporal_fields. rewrite !not_elem_of_cons.
        repeat split; try discriminate. apply not_elem_of_nil.
    + split.
      * split; [|discriminate]. intros [= ->].
        exfalso. clear -Hmap.
        revert Hmap. generalize (zip (codes Sequence_get sequence (length vlist)) vlist).
        intros l. induction l as [|x l IH]; cbn; [discriminate|].
        destruct (prepare env x) as [y|e] eqn:Hx; cbn.
        -- destruct (mapM (prepare env) l); cbn; [discriminate|]. exact IH.
        -- intros [= ->]. by apply update_dates_no_user_error in Hx.
      * split; [intros ? [= <-]; rewrite Hmap; reflexivity|discriminate].
  - split; [split; reflexivity|].
    split; [intros ? [=] | intros ? ? [=]].
Qed.

End WithSequence.

End CreateFacts.

(** ** Party *)

Section PartyFacts.

Lemma override_copy_defaults (parties : list dict) (default new : dict)
    (k : string) (v : value) :
  new ∈ Sample.override_copy parties default ->
  default !! k = Some v -> new !! k = Some v.
Proof.
  unfold Sample.override_copy. intros Hnew Hk.
  apply list_elem_of_fmap in Hnew. destruct Hnew as (party & -> & _).
  by apply lookup_union_Some_l.
Qed.

(** The framework's copy and what is assumed of it: every entry of the
    defaults is the value of that field in every new record. *)
Variable super_copy : list dict -> dict -> list dict.
Hypothesis super_copy_defaults :
  forall (parties : list dict) (default new : dict) (k : string) (v : value),
    new ∈ super_copy parties default ->
    default !! k = Some v -> new !! k = Some v.

(** C10. Let [given] be the caller's defaults (empty when the caller
    passes none). [Party.copy] leaves every dictionary of the heap as it
    was, the caller's included, and calls the framework's copy with a new
    mapping that has every entry of [given] and differs from it at most
    on 'activities'; when [given] has no 'activities' entry that entry is
    [None], and so is the 'activities' field of every copied party. *)
Theorem copy_drops_activities (parties : list dict) (default : option Party.ref)
    (h : Party.heap) :
  let given : dict :=
    match default with
    | Some l => option.default ∅ (h !! l)
    | None => ∅
    end in
  let '(copies, h') := Party.copy super_copy parties default h in
  (forall (l : Party.ref) (d : dict), h !! l = Some d -> h' !! l = Some d)
  /\ exists passed : dict,
       copies = super_copy parties passed
       /\ (forall k v, given !! k = Some v -> passed !! k = Some v)
       /\ (forall k, k <> "activities" -> passed !! k = given !! k)
       /\ (given !! "activities" = None ->
           passed !! "activities" = Some VNone
           /\ forall new, new ∈ copies -> new !! "activities" = Some VNone).
Proof.
  intros given.
  destruct (Party.copy super_copy parties default h) as [copies h'] eqn:Hcopy.
  unfold Party.copy, Party.bind, Party.alloc, Party.read, Party.setdefault,
    Party.ret in Hcopy.
  assert (forall given' : dict,
             let passed := match given' !! "activities" with
                           | Some _ => given'
                           | None => <["activities" := VNone]> given'
                           end in
             (forall k v, given' !! k = Some v -> passed !! k = Some v)
             /\ (forall k, k <> "activities" -> passed !! k = given' !! k)
             /\ (given' !! "activities" = None ->
                 passed !! "activities" = Some VNone
                 /\ forall new, new ∈ super_copy parties passed ->
                                new !! "activities" = Some VNone)) as Hpassed.
  { intros g. cbv zeta. destruct (g !! "activities") as [x|] eqn:Hact.
    - repeat split; auto; discriminate.
    - split; [|split; [|split]].
      + intros k v Hk. rewrite lookup_insert_ne; [done|]. congruence.
      + intros k Hk. by rewrite lookup_insert_ne.
      + apply lookup_insert_eq.
      + intros new Hnew.
        apply (super_copy_defaults _ _ _ _ _ Hnew), lookup_insert_eq. }
  specialize (Hpassed given). cbv zeta in Hpassed.
  destruct default as [l|]; cbn in Hcopy.
  - rewrite alter_insert_eq, lookup_insert_eq in Hcopy. cbn in Hcopy.
    injection Hcopy as <- <-.
    split; [|eexists; split; [reflexivity|exact Hpassed]].
    intros l' d Hl. rewrite lookup_insert_ne; [done|].
    intros <-. apply (is_fresh (dom h)), elem_of_dom. eauto.
  - rewrite alter_insert_eq, !lookup_insert_eq in Hcopy. cbn in Hcopy.
    injection Hcopy as <- <-.
    split; [|eexists; split; [reflexivity|exact Hpassed]].
    intros l' d Hl.
    assert (<[fresh (dom h) := (∅ : dict)]> h !! l' = Some d) as Hl1.
    { rewrite lookup_insert_ne; [done|].
      intros <-. apply (is_fresh (dom h)), elem_of_dom. eauto. }
    rewrite lookup_insert_ne; [done|].
    intros <-.
    apply (is_fresh (dom (<[fresh (dom h) := (∅ : dict)]> h))), elem_of_dom.
    eauto.
Qed.

End PartyFacts.

Lemma copy_drops_activities_witness :
  let '(copies, h') := Party.copy Sample.override_copy [Sample.ann] None ∅ in
  (forall (l : Party.ref) (d : dict),
      (∅ : Party.heap) !! l = Some d -> h' !! l = Some d)
  /\ exists passed : dict,
       copies = Sample.override_copy [Sample.ann] passed
       /\ (forall k v, (∅ : dict) !! k = Some v -> passed !! k = Some v)
       /\ (forall k, k <> "activities" -> passed !! k = (∅ : dict) !! k)
       /\ ((∅ : dict) !! "activities" = None ->
           passed !! "activities" = Some VNone
           /\ forall new, new ∈ copies -> new !! "activities" = Some VNone).
Proof.
  exact (copy_drops_activities Sample.override_copy override_copy_defaults
           [Sample.ann] None ∅).
Defined.

(** ** Busy hours *)

Section BusyHoursFacts.
Import BusyHours.

(** A dictionary filled in a loop holds, under a key, the value computed
    from the elements with that key when they all agree on it. *)
Lemma foldl_insert_lookup_None `{Countable K} {V A : Type}
    (kf : A -> K) (vf : A -> V) (l : list A) (acc : gmap K V) (i : K) :
  (forall a, a ∈ l -> kf a <> i) ->
  foldl (fun m a => <[kf a := vf a]> m) acc l !! i = acc !! i.
Proof.
  revert acc. induction l as [|x l IH]; intros acc Hl; cbn; [reflexivity|].
  rewrite IH by (intros a Ha; apply Hl; by right).
  apply lookup_insert_ne, Hl. by left.
Qed.

Lemma foldl_insert_lookup_Some `{Countable K} {V A : Type}
    (kf : A -> K) (vf : A -> V) (l : list A) (acc : gmap K V) (i : K) (w : V) :
  (forall a, a ∈ l -> kf a = i -> vf a = w) ->
  (exists a, a ∈ l /\ kf a = i) ->
  foldl (fun m a => <[kf a := vf a]> m) acc l !! i = Some w.
Proof.
  revert acc. induction l as [|x l IH]; intros acc Hall (a & Ha & Hi).
  - by apply elem_of_nil in Ha.
  - cbn. destruct (decide (i ∈ kf <$> l)) as [Hin|Hout].
    + apply list_elem_of_fmap in Hin. destruct Hin as (b & -> & Hb).
      apply IH; [|eauto]. intros c Hc. apply Hall. by right.
    + rewrite foldl_insert_lookup_None.
      * apply elem_of_cons in Ha. destruct Ha as [->|Ha].
        -- rewrite Hi, lookup_insert_eq. f_equal. apply Hall; [by left|done].
        -- exfalso. apply Hout, list_elem_of_fmap. eauto.
      * intros b Hb <-. apply Hout, list_elem_of_fmap. eauto.
Qed.

Lemma filter_filter_implied {A : Type} (P Q : A -> bool) (l : list A) :
  (forall x, In x l -> P x = true -> Q x = true) ->
  List.filter P (List.filter Q l) = List.filter P l.
Proof.
  induction l as [|x l IH]; intros HPQ; cbn; [reflexivity|].
  destruct (Q x) eqn:HQ; cbn.
  - rewrite IH by (intros; apply HPQ; [by right|done]). reflexivity.
  - destruct (P x) eqn:HP.
    + rewrite HPQ in HQ; [discriminate|by left|done].
    + apply IH. intros; apply HPQ; [by right|done].
Qed.


Lemma mapM_total {A B : Type} (f : A -> result B) (g : A -> B) (xs : list A) :
  (forall x, x ∈ xs -> f x = Ok (g x)) -> mapM f xs = Ok (g <$> xs).
Proof.
  induction xs as [|x xs IH]; intros Hf; cbn; [reflexivity|].
  rewrite Hf by (by left). cbn.
  rewrite IH by (intros; apply Hf; by right). reflexivity.
Qed.

(** [min] and [max] of dates that are all present. *)
Lemma py_extremum_bound (pick : Z -> Z -> Z) (R : Z -> Z -> Prop) (zs : list Z) :
  (forall a, R a a) ->
  (forall a b c, R a b -> R b c -> R a c) ->
  (forall a b, R (pick a b) a /\ R (pick a b) b) ->
  zs <> [] ->
  exists m, py_extremum pick (Some <$> zs) = Ok (Some m)
            /\ forall z, z ∈ zs -> R m z.
Proof.
  intros Hrefl Htrans Hpick Hne.
  destruct zs as [|a zs]; [contradiction|]. clear Hne.
  assert (py_extremum pick (Some <$> a :: zs)
          = foldl (fun acc y =>
                     match acc, y with
                     | Ok (Some a), Some b => Ok (Some (pick a b))
                     | Raise e, _ => Raise e
                     | _, _ => Raise TypeError
                     end) (Ok (Some a)) (Some <$> zs)) as ->.
  { destruct zs; reflexivity. }
  assert (forall acc, exists m,
             foldl (fun acc y =>
                      match acc, y with
                      | Ok (Some a), Some b => Ok (Some (pick a b))
                      | Raise e, _ => Raise e
                      | _, _ => Raise TypeError
                      end) (Ok (Some acc)) (Some <$> zs) = Ok (Some m)
             /\ R m acc /\ forall z, z ∈ zs -> R m z) as Hfold.
  { induction zs as [|z zs IH]; intros acc; cbn.
    - exists acc. repeat split; auto. intros z Hz. by apply elem_of_nil in Hz.
    - destruct (IH (pick acc z)) as (m & -> & Hm & Hall).
      destruct (Hpick acc z) as [Hl Hr].
      exists m. repeat split; eauto.
      intros y Hy. apply elem_of_cons in Hy. destruct Hy as [->|Hy]; eauto. }
  destruct (Hfold a) as (m & -> & Hm & Hall).
  exists m. split; [reflexivity|].
  intros z Hz. apply elem_of_cons in Hz. destruct Hz as [->|Hz]; auto.
Qed.

(** The dictionary [sums] built from the fetched records. *)
Lemma sums_lookup (g : Z * Z -> option Z) (keys : list (Z * Z))
    (acc : gmap (Z * Z) value) (k : Z * Z) :
  foldl (fun (sums : gmap (Z * Z) value) (record : Z * Z * option Z) =>
           let '(e, d, s) := record in
           <[(e, d) := of_option VTimeDelta s]> sums)
        acc ((fun k => (k, g k)) <$> keys) !! k
  = if decide (k ∈ keys) then Some (of_option VTimeDelta (g k)) else acc !! k.
Proof.
  assert (forall acc,
             foldl (fun (sums : gmap (Z * Z) value) (record : Z * Z * option Z) =>
                      let '(e, d, s) := record in
                      <[(e, d) := of_option VTimeDelta s]> sums)
                   acc ((fun k => (k, g k)) <$> keys)
             = foldl (fun m k => <[k := of_option VTimeDelta (g k)]> m) acc keys)
    as ->.
  { induction keys as [|[e d] keys IH]; intros acc'; cbn; [reflexivity|].
    apply IH. }
  destruct (decide (k ∈ keys)) as [Hin|Hout].
  - apply (foldl_insert_lookup_Some (fun k => k)); [by intros a _ ->|eauto].
  - apply (foldl_insert_lookup_None (fun k => k)). by intros a Ha ->.
Qed.

(** The result dictionary built by the last loop. *)
Lemma busy_loop_total (sums : gmap (Z * Z) value) (activities : list Activity)
    (acc : gmap Z value) :
  (forall a, a ∈ activities -> is_Some (employee a)) ->
  foldl (fun res activity =>
           r ← res;
           e ← match employee activity with
               | Some e => Ok (employee_id e)
               | None => Raise AttributeError
               end;
           let found :=
             match date activity with
             | Some d => sums !! (e, d)
             | None => None
             end in
           Ok (<[id activity := default (VTimeDelta 0) found]> r))
        (Ok acc) activities
  = Ok (foldl (fun m a =>
                 <[id a := default (VTimeDelta 0)
                             (e ← employee a; d ← date a;
                              sums !! (employee_id e, d))]> m)
              acc activities).
Proof.
  revert acc. induction activities as [|a l IH]; intros acc Hall; [reflexivity|].
  cbn [foldl]. destruct (Hall a) as [e He]; [by left|].
  rewrite He. cbn. rewrite IH by (intros; apply Hall; by right).
  reflexivity.
Qed.

(** C4, as stated, fails: employee 7 has two rows on 2024-01-01, the
    activity's own (one hour) and another (two hours). The value computed
    for the activity is three hours, its own hour included, where the
    total of the other activities is two hours. *)
Lemma day_busy_hours_counterexample :
  get_day_busy_hours Sample.table
    [Sample.activity 1 None (Some Sample.alice) None "planned"]
    = Ok {[ 1 := VTimeDelta (3 * Sample.hour) ]}
  /\ Claimed.others_total Sample.table 7 Sample.new_year 1 = 2 * Sample.hour.
Proof. split; vm_compute; reflexivity. Qed.

(** C4, amended. For a non-empty batch of saved activities (each with its
    employee and date, and no two distinct ones sharing an id), the value
    computed for each activity is the total recorded in the table for its
    employee on its date, the activity's own row included: the sum of the
    durations of all those rows ([None] when none of them has a
    duration), and a zero timedelta when the table has no such row. *)
Theorem day_busy_hours_totals (table : list Row) (activities : list Activity) :
  activities <> [] ->
  (forall a, a ∈ activities -> is_Some (employee a) /\ is_Some (date a)) ->
  (forall a b, a ∈ activities -> b ∈ activities -> id a = id b -> a = b) ->
  exists res,
    get_day_busy_hours table activities = Ok res
    /\ forall a e d,
         a ∈ activities -> employee a = Some e -> date a = Some d ->
         res !! id a = Some (day_total table (employee_id e) d).
Proof.
  intros Hne Hall Huniq.
  set (emp := fun a : Activity => from_option employee_id 0 (employee a)).
  set (day := fun a : Activity => option.default 0 (date a)).
  unfold get_day_busy_hours.
  rewrite (mapM_total _ emp); cycle 1.
  { intros a Ha. destruct (Hall a Ha) as [[e He] _]. subst emp. cbn. by rewrite He. }
  assert (date <$> activities = Some <$> (day <$> activities)) as ->.
  { rewrite <- list_fmap_compose. apply list_fmap_ext.
    intros i a Ha. apply list_elem_of_lookup_2 in Ha.
    destruct (Hall a Ha) as [_ [d Hd]]. subst day. cbn. by rewrite Hd. }
  assert (day <$> activities <> []) as Hne'.
  { destruct activities; [contradiction|discriminate]. }
  destruct (py_extremum_bound Z.min Z.le (day <$> activities))
    as (lo & -> & Hlo); [lia|lia|lia|exact Hne'|].
  destruct (py_extremum_bound Z.max Z.ge (day <$> activities))
    as (hi & -> & Hhi); [lia|lia|lia|exact Hne'|].
  cbn [mbind result_bind].
  rewrite busy_loop_total by (intros a Ha; apply Hall, Ha).
  eexists. split; [reflexivity|].
  intros a e d Ha He Hd.
  apply (foldl_insert_lookup_Some id); [|eauto].
  intros b Hb Hid. rewrite (Huniq b a Hb Ha Hid), He, Hd. cbn.
  clear b Hb Hid.
  unfold fetchall. rewrite sums_lookup. rewrite lookup_empty.
  unfold day_total.
  set (k := (employee_id e, d)).
  set (selected := List.filter _ table).
  assert (List.filter (fun r => bool_decide (key r = k)) selected
          = List.filter (fun r => bool_decide (key r = k)) table) as Hgroup.
  { apply filter_filter_implied. intros r _ Hr.
    apply bool_decide_eq_true in Hr. unfold key in Hr. subst k.
    injection Hr as Hre Hrd.
    unfold where_. rewrite Hre, Hrd.
    assert (day a = d) as Hday by (subst day; cbn; by rewrite Hd).
    assert (d ∈ day <$> activities) as Hin
      by (rewrite <- Hday; apply list_elem_of_fmap; eauto).
    pose proof (Hlo d Hin). pose proof (Hhi d Hin).
    rewrite bool_decide_eq_true_2.
    - cbn. apply andb_true_intro. split; lia.
    - apply list_elem_of_fmap. exists a. split; [|done].
      subst emp. cbn. by rewrite He. }
  rewrite Hgroup.
  destruct (List.filter (fun r => bool_decide (key r = k)) table) as [|r group] eqn:Hg.
  - rewrite decide_False; [reflexivity|].
    rewrite elem_of_remove_dups, list_elem_of_fmap.
    intros (r & Hr & Hin).
    assert (In r (List.filter (fun r => bool_decide (key r = k)) selected)) as Hc.
    { apply filter_In. split; [by apply list_elem_of_In|].
      by apply bool_decide_eq_true_2. }
    rewrite Hgroup in Hc. destruct Hc.
  - rewrite decide_True; [reflexivity|].
    rewrite elem_of_remove_dups, list_elem_of_fmap.
    assert (In r (List.filter (fun r => bool_decide (key r = k)) selected)) as Hc.
    { rewrite Hgroup. by left. }
    apply filter_In in Hc. destruct Hc as [Hin Hk].
    exists r. split; [by apply bool_decide_eq_true in Hk|by apply list_elem_of_In].
Qed.

Lemma day_busy_hours_totals_witness :
  exists res,
    get_day_busy_hours Sample.table
      [Sample.activity 1 None (Some Sample.alice) None "planned"] = Ok res
    /\ forall a e d,
         a ∈ [Sample.activity 1 None (Some Sample.alice) None "planned"] ->
         employee a = Some e -> date a = Some d ->
         res !! id a = Some (day_total Sample.table (employee_id e) d).
Proof.
  apply (day_busy_hours_totals Sample.table
           [Sample.activity 1 None (Some Sample.alice) None "planned"]).
  - discriminate.
  - intros a Ha. apply list_elem_of_singleton in Ha. subst a. split; eauto.
  - intros a b Ha Hb _.
    apply list_elem_of_singleton in Ha, Hb. congruence.
Defined.

End BusyHoursFacts.

(** ** Worked examples *)

Section Examples.
Import Temporal Color Calendar BusyHours Create.

(** A held activity without type or employee colour: the default colour
    faded, and a black foreground on it. *)
Example done_without_colours :
  let self := Sample.activity 1 None None None "done" in
  get_calendar_background_color Sample.env_no_zone self = Ok "#d3feff"
  /\ get_calendar_color Sample.env_no_zone self = Ok "black".
Proof. split; vm_compute; reflexivity. Qed.

(** A planned activity whose employee colour is not hexadecimal keeps it
    as background; the foreground falls back to white. *)
Example unparsable_employee_colour :
  let who := {| employee_id := 9; employee_color := Some "red" |} in
  let self := Sample.activity 1 None (Some who) None "planned" in
  get_calendar_background_color Sample.env_no_zone self = Ok "red"
  /\ RGB (CStr "red") = _RGB
  /\ get_calendar_color Sample.env_no_zone self = Ok "white".
Proof. repeat split; vm_compute; reflexivity. Qed.

(** Without a time zone, date and time derived from a start timestamp are
    its UTC components. *)
Example start_without_zone :
  let start := Datetime.at_ Sample.new_year 9 30 in
  update_dates Sample.env_no_zone
    {[ "dtstart" := VDateTime start; "dtend" := VNone ]} None
  = Ok {[ "dtstart" := VDateTime start; "dtend" := VNone;
          "date" := VDate Sample.new_year;
          "time" := VTime (Datetime.time start);
          "duration" := VNone ]}.
Proof. vm_compute. reflexivity. Qed.

(** An update of the start timestamp alone on a record with a duration:
    the end timestamp follows from the record's duration. *)
Example start_moves_end :
  let record := Sample.activity 1 None None
                  (Some (Datetime.at_ Sample.new_year 8 0)) "planned" in
  let start := Datetime.at_ Sample.new_year 9 0 in
  exists out,
    update_dates Sample.env_no_zone {[ "dtstart" := VDateTime start ]} (Some record)
      = Ok out
    /\ out !! "duration" = Some (VTimeDelta Sample.hour)
    /\ out !! "dtend" = Some (VDateTime (Datetime.at_ Sample.new_year 10 0)).
Proof. eexists. repeat split; vm_compute; reflexivity. Qed.

(** Two records created with a sequence standing at 1: codes 1 and 2; the
    second update has no date and is left without timestamps. *)
Example create_two :
  create Sample.counter_get Sample.env_plus_one
    {| activity_sequence := Some 1%nat |} [Sample.timed_update; ∅]
  = Ok ([ <["dtend" := VDateTime (Datetime.at_ Sample.new_year 10 0)]>
            (<["dtstart" := VDateTime (Datetime.at_ Sample.new_year 9 0)]>
               (<["code" := VStr "1"]> Sample.timed_update));
          {[ "code" := VStr "2" ]} ],
        3%nat).
Proof. vm_compute. reflexivity. Qed.

Example create_without_sequence :
  create Sample.counter_get Sample.env_plus_one
    {| activity_sequence := None |} [Sample.timed_update]
  = Raise (UserError "activity.no_activity_sequence").
Proof. reflexivity. Qed.

(** An employee whose only row has no duration: the sum is NULL; an
    activity without any row: zero. *)
Example busy_hours_without_duration :
  get_day_busy_hours Sample.table
    [Sample.activity 3 None (Some Sample.plain) None "planned"]
  = Ok {[ 3 := VNone ]}
  /\ get_day_busy_hours []
       [Sample.activity 3 None (Some Sample.plain) None "planned"]
     = Ok {[ 3 := VTimeDelta 0 ]}.
Proof. split; vm_compute; reflexivity. Qed.

End Examples.

(** * Further properties *)

Section TemporalMore.
Import Temporal.

(** X1. A successful [update_dates] keeps every key of the update and
    leaves every entry other than date, time, duration, dtstart and dtend
    as the update has it. *)
Theorem update_dates_frame (env : Env) (values out : dict) (record : option Activity) :
  update_dates env values record = Ok out ->
  (forall k, is_Some (values !! k) -> is_Some (out !! k))
  /\ (forall k, k <> "date" -> k <> "time" -> k <> "duration" ->
                k <> "dtstart" -> k <> "dtend" -> out !! k = values !! k).
Proof.
  intros H. apply update_dates_grows in H. split.
  - intros k. apply (H k).
  - intros k H1 H2 H3 H4 H5. apply (H k).
    unfold temporal_fields. rewrite !not_elem_of_cons.
    repeat split; try done. apply not_elem_of_nil.
Qed.

(** X2. An update without date whose 'dtstart' entry is not a datetime
    (in particular [None], to clear the start) raises an attribute error,
    whatever the record. *)
Theorem update_dates_start_not_datetime (env : Env) (values : dict)
    (record : option Activity) (v : value) :
  values !! "date" = None ->
  values !! "dtstart" = Some v ->
  (forall dt, v <> VDateTime dt) ->
  update_dates env values record = Raise AttributeError.
Proof.
  intros Hdate Hstart Hv. unfold update_dates, from_timestamps.
  rewrite Hdate, Hstart. destruct v; try reflexivity.
  by destruct (Hv dt).
Qed.

Lemma fallback_insert_other (values : dict) (record : option Activity)
    (k : string) (x : value) :
  k <> "date" -> k <> "time" -> k <> "duration" ->
  fallback (<[k := x]> values) record = <[k := x]> (fallback values record).
Proof.
  intros H1 H2 H3. unfold fallback. destruct record as [r|]; [|reflexivity].
  cbn. rewrite !lookup_insert_ne by done.
  destruct (values !! "date"); destruct (values !! "time") eqn:Ht;
    destruct (values !! "duration") eqn:Hd.
  all: repeat first [rewrite lookup_insert_ne by done
                    | rewrite Ht | rewrite Hd ].
  all: try reflexivity.
  all: apply map_eq; intros j;
       repeat (rewrite lookup_insert; case_decide; subst; try congruence); done.
Qed.

Lemma fallback_idempotent (values : dict) (record : option Activity) :
  fallback (fallback values record) record = fallback values record.
Proof.
  unfold fallback. destruct record as [r|]; [|reflexivity].
  cbn.
  destruct (values !! "date") eqn:H1; destruct (values !! "time") eqn:H2;
    destruct (values !! "duration") eqn:H3.
  all: repeat first [ rewrite lookup_insert_eq
                    | rewrite lookup_insert_ne by done
                    | rewrite H1 | rewrite H2 | rewrite H3 ].
  all: reflexivity.
Qed.

Lemma get_insert_ne (values : dict) (k j : string) (x : value) :
  k <> j -> get (<[k := x]> values) j = get values j.
Proof. intros H. unfold get. by rewrite lookup_insert_ne. Qed.

(** The later steps read the date, time-of-day and duration of the mapping
    and nothing else. *)
Lemma to_timestamps_shape (env : Env) (v : dict) :
  truthy (get v "date") = true ->
  exists r : result (Z * value),
    forall w : dict,
      get w "date" = get v "date" ->
      get w "time" = get v "time" ->
      get w "duration" = get v "duration" ->
      to_timestamps env w
      = ('(s, e) ← r; Ok (<["dtend" := e]> (<["dtstart" := VDateTime s]> w))).
Proof.
  intros Hd.
  eexists (let time := if negb (truthy (get v "time"))
                       then VTime (Datetime.time (clock_now env))
                       else get v "time" in
           dtstart ← match get v "date",
                           (if truthy time then time else VTime Datetime.midnight) with
                     | VDate d, VTime t => Ok (Datetime.combine d t)
                     | VDateTime dt, VTime t => Ok (Datetime.combine (Datetime.date dt) t)
                     | _, _ => Raise TypeError
                     end;
           dtstart ← local_to_utc env dtstart;
           dtend ← (if truthy time && truthy (get v "duration")
                    then match get v "duration" with
                         | VTimeDelta td => VDateTime <$> Datetime.add dtstart td
                         | _ => Raise TypeError
                         end
                    else Ok VNone);
           Ok (dtstart, dtend)).
  intros w H1 H2 H3. unfold to_timestamps. rewrite H1, H2, H3, Hd.
  cbn [negb]. cbv zeta.
  repeat match goal with
         | |- context [?m ≫= _] =>
             lazymatch m with
             | Ok _ => fail
             | Raise _ => fail
             | _ => destruct m eqn:?; cbn [mbind result_bind]
             end
         end; try reflexivity.
Qed.

Lemma fallback_keeps (values : dict) (record : option Activity)
    (k : string) (x : value) :
  values !! k = Some x -> fallback values record !! k = Some x.
Proof.
  intros Hk. unfold fallback. destruct record as [r|]; [|done].
  assert (forall (v : dict) (f : string) (y : value),
             v !! k = Some x ->
             match v !! f with
             | Some _ => v
             | None => <[f := y]> v
             end !! k = Some x) as Hstep.
  { intros v f y Hv. destruct (v !! f) eqn:Hf; [done|].
    rewrite lookup_insert_ne; [done|]. intros ->. congruence. }
  cbn. auto.
Qed.

Lemma from_timestamps_dated (values : dict) (record : option Activity) :
  is_Some (values !! "date") ->
  from_timestamps values record = Ok (Continue values).
Proof. intros [x Hx]. unfold from_timestamps. by rewrite Hx. Qed.

(** X3. When the update sets a date, its own 'dtstart' and 'dtend'
    entries play no part: the outcome is the same as without them, both
    being recomputed from date, time-of-day and duration. *)
Theorem update_dates_date_overrides_timestamps (env : Env) (values : dict)
    (record : option Activity) (d : Z) (x y : value) :
  values !! "date" = Some (VDate d) ->
  update_dates env (<["dtend" := y]> (<["dtstart" := x]> values)) record
  = update_dates env values record.
Proof.
  intros Hd. unfold update_dates.
  rewrite !from_timestamps_dated
    by (rewrite ?lookup_insert_ne by done; rewrite Hd; eauto).
  cbn [mbind result_bind].
  rewrite !fallback_insert_other by done.
  assert (get (fallback values record) "date" = VDate d) as Hget.
  { unfold get. by rewrite (fallback_keeps _ _ _ _ Hd). }
  destruct (to_timestamps_shape env (fallback values record)) as [r Hr];
    [by rewrite Hget|].
  rewrite (Hr (fallback values record)) by reflexivity.
  rewrite Hr by (by rewrite !get_insert_ne).
  destruct r as [[s e]|err]; cbn; [|reflexivity].
  f_equal. apply map_eq. intros k.
  repeat (rewrite lookup_insert; case_decide; subst; try congruence); done.
Qed.

(** X4. For an update that sets a date, the derivation is idempotent: run
    again on its own outcome, with the same record, clock and time zone,
    it returns that outcome unchanged. *)
Theorem update_dates_idempotent (env : Env) (values out : dict)
    (record : option Activity) :
  is_Some (values !! "date") ->
  update_dates env values record = Ok out ->
  update_dates env out record = Ok out.
Proof.
  intros Hdate H.
  pose proof (update_dates_grows _ _ _ _ H) as Hgrows.
  unfold update_dates in *.
  rewrite from_timestamps_dated in H by done.
  rewrite from_timestamps_dated by (by apply Hgrows).
  cbn [mbind result_bind] in *.
  destruct (truthy (get (fallback values record) "date")) eqn:Ht.
  - destruct (to_timestamps_shape env _ Ht) as [r Hr].
    rewrite (Hr (fallback values record)) in H by reflexivity.
    destruct r as [[s e]|err]; cbn in H; [|discriminate].
    injection H as <-.
    rewrite !fallback_insert_other, fallback_idempotent by done.
    rewrite Hr by (by rewrite !get_insert_ne). cbn.
    f_equal. apply map_eq. intros k.
    repeat (rewrite lookup_insert; case_decide; subst; try congruence); done.
  - unfold to_timestamps in H. rewrite Ht in H. cbn in H. injection H as <-.
    rewrite fallback_idempotent. unfold to_timestamps. by rewrite Ht.
Qed.

(** X5. With no date, start or end timestamp in the update and no date
    on the record (or no record), nothing is derived: the outcome is the
    update completed with the record's fields, and it has neither a
    'dtstart' nor a 'dtend' entry. *)
Theorem update_dates_without_date (env : Env) (values : dict)
    (record : option Activity) :
  values !! "date" = None ->
  values !! "dtstart" = None ->
  values !! "dtend" = None ->
  (forall r, record = Some r -> date r = None) ->
  update_dates env values record = Ok (fallback values record)
  /\ fallback values record !! "dtstart" = None
  /\ fallback values record !! "dtend" = None.
Proof.
  intros Hd Hs He Hr.
  assert (fallback values record !! "dtstart" = None
          /\ fallback values record !! "dtend" = None) as Hkeys.
  { destruct (fallback_grows values record "dtstart") as [_ H1].
    destruct (fallback_grows values record "dtend") as [_ H2].
    unfold fallback in *. destruct record as [r|]; [|done]. cbn in *.
    repeat case_match; rewrite ?lookup_insert_ne by done; done. }
  split; [|exact Hkeys].
  unfold update_dates, from_timestamps. rewrite Hd, Hs.
  assert (get (fallback values record) "date" = VNone) as Hget.
  { unfold get, fallback. destruct record as [r|]; cbn; [|by rewrite Hd].
    rewrite Hd. rewrite (Hr r eq_refl). cbn.
    repeat case_match; rewrite ?lookup_insert_ne by done;
      by rewrite lookup_insert_eq. }
  destruct record as [r|]; cbn [mbind result_bind]; rewrite He;
    cbn [mbind result_bind]; unfold to_timestamps; by rewrite Hget.
Qed.

(** X6. Where the zone gives a UTC timestamp and its local reading the
    same offset (away from a change of offset) and both are representable,
    converting to local time and back returns the timestamp. *)
Theorem utc_local_round_trip (env : Env) (tz : tzinfo) (v : Z) :
  get_timezone env = Some tz ->
  localize_utcoffset tz (v + localize_utcoffset tz v) = localize_utcoffset tz v ->
  Datetime.in_range v = true ->
  Datetime.in_range (v + localize_utcoffset tz v) = true ->
  (local ← utc_to_local env v; local_to_utc env local) = Ok v.
Proof.
  intros Htz Hstable Hv Hlocal.
  unfold utc_to_local, local_to_utc, Datetime.sub, Datetime.add.
  rewrite Htz, Hlocal. cbn [mbind result_bind]. rewrite Hstable.
  replace (v + localize_utcoffset tz v + - localize_utcoffset tz v) with v by lia.
  by rewrite Hv.
Qed.

(** X7. [on_change_dtstart] changes nothing but date and time; without a
    start timestamp it changes nothing at all, and with one the date is
    set and the time is never left at midnight. *)
Theorem on_change_dtstart_effect (env : Env) (self self' : Activity) :
  on_change_dtstart env self = Ok self' ->
  id self' = id self
  /\ activity_type self' = activity_type self
  /\ employee self' = employee self
  /\ duration self' = duration self
  /\ dtstart self' = dtstart self
  /\ state self' = state self
  /\ (dtstart self = None -> self' = self)
  /\ (is_Some (dtstart self) ->
      is_Some (date self') /\ time self' <> Some Datetime.midnight).
Proof.
  unfold on_change_dtstart. intros H.
  destruct (dtstart self) as [start|] eqn:Hs.
  - destruct (utc_to_local env start) as [dt|]; cbn in H; [|discriminate].
    destruct (Z.eqb_spec (Datetime.time dt) Datetime.midnight) as [He|Hne];
      injection H as <-; cbn; rewrite ?Hs;
      repeat split; try discriminate; eauto.
    intros [= Heq]. by apply Hne.
  - injection H as <-. rewrite Hs. repeat split; try done.
Qed.

(** X8. Whenever the outcome of [update_dates] holds a date, a start
    timestamp and an end timestamp, its duration is exactly end - start. *)
Theorem update_dates_duration_consistent (env : Env) (values out : dict)
    (record : option Activity) (d s e : Z) :
  update_dates env values record = Ok out ->
  out !! "date" = Some (VDate d) ->
  out !! "dtstart" = Some (VDateTime s) ->
  out !! "dtend" = Some (VDateTime e) ->
  out !! "duration" = Some (VTimeDelta (Datetime.diff e s)).
Proof.
  unfold update_dates. intros H Hd Hs He.
  destruct (from_timestamps values record) as [[v|v]|] eqn:Hfrom;
    cbn in H; [| |discriminate].
  - injection H as ->. unfold from_timestamps in Hfrom.
    destruct (values !! "date"); [discriminate|].
    destruct (values !! "dtstart") as [[| | | |dt|]|] eqn:Hvs; try discriminate;
      cbn in Hfrom.
    + rewrite !lookup_insert_ne in Hfrom by done.
      destruct (values !! "dtend") as [[| | | |e'|]|] eqn:Hve; cbn in Hfrom;
        repeat case_match; simplify_eq;
        rewrite ?lookup_insert_eq, ?lookup_insert_ne in * by done;
        simplify_eq; try done.
    + destruct record as [r|]; cbn in Hfrom;
        destruct (values !! "dtend"); repeat case_match; simplify_eq;
        rewrite ?lookup_insert_ne in * by done; congruence.
  - unfold to_timestamps in H.
    assert (get (fallback v record) "date" = VDate d
            \/ truthy (get (fallback v record) "date") = false) as [Hget|Hf].
    { destruct (truthy (get (fallback v record) "date")) eqn:Ht; [left|by right].
      cbn [negb] in H.
      repeat match type of H with
             | (?m ≫= _) = _ => destruct m; cbn in H; [|discriminate]
             end.
      injection H as <-. rewrite !lookup_insert_ne in Hd by done.
      unfold get. by rewrite Hd. }
    2:{ rewrite Hf in H. cbn in H. injection H as <-.
        unfold get in Hf. rewrite Hd in Hf. discriminate. }
    rewrite Hget in H. cbn [truthy negb] in H.
    repeat match type of H with
           | (?m ≫= _) = _ => destruct m eqn:?; cbn in H; [|discriminate]
           end.
    injection H as <-.
    rewrite lookup_insert_ne, lookup_insert_eq in Hs by done.
    rewrite lookup_insert_eq in He.
    rewrite !lookup_insert_ne by done.
    simplify_eq.
    match goal with
    | Hend : (if ?c then _ else _) = Ok (VDateTime e) |- _ =>
        destruct c; [|discriminate];
        unfold get in *;
        destruct (fallback v record !! "duration") as [[| | |td| |]|];
          cbn in Hend; try discriminate;
        unfold Datetime.add in Hend;
        destruct (Datetime.in_range _); cbn in Hend; [|discriminate];
        simplify_eq; do 2 f_equal; unfold Datetime.diff; lia
    end.
Qed.
End TemporalMore.

Section ColorMore.
Import Color Calendar.

Lemma strip_sign_negative (s : string) :
  (strip_sign s).1 = true ->
  (S (String.length (strip_sign s).2) <= String.length s)%nat.
Proof.
  destruct s as [|c s]; cbn; [discriminate|].
  destruct (Ascii.eqb c "+"); [discriminate|].
  destruct (Ascii.eqb c "-"); cbn; [lia|discriminate].
Qed.

(** A negative number takes a sign, which leaves one digit fewer. *)
Lemma int16_lower_bound (s : string) (v : Z) :
  int16 s = Ok v -> - 16 ^ (Z.of_nat (String.length s) - 1) < v.
Proof.
  intros H.
  assert (0 < 16 ^ (Z.of_nat (String.length s) - 1)) as Hpos.
  { destruct s as [|c s]; [discriminate H|].
    apply Z.pow_pos_nonneg; cbn [String.length]; lia. }
  unfold int16 in H.
  pose proof (skip_space_length s) as H1.
  pose proof (strip_sign_length (skip_space s)) as H2.
  pose proof (strip_sign_negative (skip_space s)) as H2'.
  destruct (strip_sign (skip_space s)) as [negative s1]. cbn [fst snd] in *.
  pose proof (strip_prefix_length s1) as H3.
  destruct (starts_with_underscore (strip_prefix s1)); [discriminate|].
  destruct (scan16 (strip_prefix s1) 0 0%nat false)
    as [[[n [|digits]] rest]|] eqn:Hscan; try discriminate.
  destruct (skip_space rest); [|discriminate].
  apply scan16_bound in Hscan; [|lia].
  destruct negative; inversion H; subst.
  - specialize (H2' eq_refl).
    assert (16 ^ Z.of_nat (String.length (strip_prefix s1))
            <= 16 ^ (Z.of_nat (String.length s) - 1))
      by (apply Z.pow_le_mono_r; lia).
    lia.
  - lia.
Qed.

Lemma RGB_channels_tight (color : string) :
  let '(r, g, b) := RGB (CStr color) in
  -15 <= r <= 255 /\ -15 <= g <= 255 /\ -15 <= b <= 255.
Proof.
  unfold RGB.
  assert (forall i s v, int16 (substring i 2 s) = Ok v -> -15 <= v <= 255) as Hb.
  { intros i s v Hv.
    pose proof (int16_bound _ _ Hv) as Hup.
    pose proof (int16_lower_bound _ _ Hv) as Hlow.
    pose proof (substring_length i 2 s) as Hlen.
    assert (16 ^ Z.of_nat (String.length (substring i 2 s)) <= 16 ^ 2)
      by (apply Z.pow_le_mono_r; lia).
    assert (16 ^ (Z.of_nat (String.length (substring i 2 s)) - 1) <= 16 ^ 1)
      by (apply Z.pow_le_mono_r; lia).
    lia. }
  destruct (int16 (substring 0 2 _)) as [r|] eqn:Hr; [|cbn; lia].
  destruct (int16 (substring 2 2 _)) as [g|] eqn:Hg; [|cbn; lia].
  destruct (int16 (substring 4 2 _)) as [b|] eqn:Hbl; [|cbn; lia].
  apply Hb in Hr, Hg, Hbl. lia.
Qed.

Lemma hex_byte (z : Z) :
  0 <= z <= 255 ->
  exists c1 c2,
    format_02x z = String c1 (String c2 EmptyString)
    /\ Ascii.eqb c1 "#" = false
    /\ int16 (String c1 (String c2 EmptyString)) = Ok z.
Proof.
  intros Hz.
  assert (forallb Checks.hex_byte_ok (seq 0 256) = true) as Hall
    by (vm_compute; reflexivity).
  rewrite forallb_forall in Hall.
  specialize (Hall (Z.to_nat z)). unfold Checks.hex_byte_ok in Hall.
  rewrite Z2Nat.id in Hall by lia.
  assert (In (Z.to_nat z) (seq 0 256)) as Hin by (apply in_seq; lia).
  specialize (Hall Hin).
  destruct (format_02x z) as [|c1 [|c2 [|]]]; try discriminate.
  apply andb_prop in Hall. destruct Hall as [H1 H2].
  exists c1, c2. split; [reflexivity|]. split; [by apply negb_true_iff|].
  destruct (int16 _) as [v|]; [|discriminate].
  f_equal. by apply Z.eqb_eq.
Qed.

Lemma hex_parses (r g b : Z) :
  0 <= r <= 255 -> 0 <= g <= 255 -> 0 <= b <= 255 ->
  RGB (CStr (hex (r, g, b))) = (r, g, b)
  /\ String.length (hex (r, g, b)) = 7%nat.
Proof.
  intros Hr Hg Hb.
  destruct (hex_byte r Hr) as (r1 & r2 & Er & Nr & Ir).
  destruct (hex_byte g Hg) as (g1 & g2 & Eg & Ng & Ig).
  destruct (hex_byte b Hb) as (b1 & b2 & Eb & Nb & Ib).
  unfold hex. rewrite Er, Eg, Eb. cbn [String.append].
  split; [|reflexivity].
  unfold RGB.
  change ("#" +:+ String r1 (String r2 "") +:+ String g1 (String g2 "")
          +:+ String b1 (String b2 ""))
    with (String "#" (String r1 (String r2 (String g1 (String g2
            (String b1 (String b2 ""))))))).
  cbn [lstrip]. rewrite Ascii.eqb_refl. cbn [lstrip]. rewrite Nr.
  cbn [substring]. by rewrite Ir, Ig, Ib.
Qed.

(** X9. For channels within [0, 255], [hex] prints seven characters and
    [RGB] reads the same channels back from them. *)
Theorem RGB_hex_round_trip (r g b : Z) :
  0 <= r <= 255 -> 0 <= g <= 255 -> 0 <= b <= 255 ->
  RGB (CStr (hex (r, g, b))) = (r, g, b)
  /\ String.length (hex (r, g, b)) = 7%nat.
Proof. apply hex_parses. Qed.

(** X10. Fading with ratio 0.8 never raises on a colour read from a
    string, and lightens: every channel of the result is at least the
    original channel and lies within [0, 255]. *)
Theorem increase_ratio_lightens (color : string) :
  let '(r, g, b) := RGB (CStr color) in
  exists r' g' b',
    increase_ratio (RGB (CStr color)) ratio_0_8 = Ok (r', g', b')
    /\ r <= r' <= 255 /\ g <= g' <= 255 /\ b <= b' <= 255
    /\ 0 <= r' /\ 0 <= g' /\ 0 <= b'.
Proof.
  pose proof (increase_ratio_parsed color) as Hfade. cbv zeta in Hfade.
  pose proof (RGB_channels_tight color) as Hc.
  destruct (RGB (CStr color)) as [[r g] b]. rewrite Hfade.
  unfold increase, gray.
  assert ((r + g + b) / 3 <= 255) by (apply Z.div_le_upper_bound; lia).
  assert (0 <= 8 * (255 - (r + g + b) / 3) / 10) by (apply Z.div_pos; lia).
  set (inc := 8 * (255 - (r + g + b) / 3) / 10) in *.
  eexists _, _, _. split; [reflexivity|]. lia.
Qed.

(** X11. Every activity that is not planned gets 'black' as foreground
    colour, whatever its type, employee and colours. *)
Theorem calendar_color_black_unless_planned (env : Env) (self : Activity) :
  state self <> "planned" ->
  get_calendar_color env self = Ok "black".
Proof.
  intros Hstate.
  unfold get_calendar_color, get_calendar_background_color.
  destruct (String.eqb_spec (state self) "planned") as [|_]; [contradiction|].
  cbn [negb].
  pose proof (increase_ratio_parsed (base_color env self)) as Hfade.
  cbv zeta in Hfade. rewrite Hfade. clear Hfade.
  pose proof (RGB_channels_tight (base_color env self)) as Hc.
  destruct (RGB (CStr (base_color env self))) as [[r g] b].
  cbn [mbind result_bind]. unfold increase, gray.
  set (inc := 8 * (255 - (r + g + b) / 3) / 10).
  rewrite (proj1 (hex_parses
                    (Z.max 0 (Z.min 255 (r + inc))) (Z.max 0 (Z.min 255 (g + inc)))
                    (Z.max 0 (Z.min 255 (b + inc)))
                    ltac:(lia) ltac:(lia) ltac:(lia))).
  assert (128 < (Z.max 0 (Z.min 255 (r + inc)) + Z.max 0 (Z.min 255 (g + inc))
                 + Z.max 0 (Z.min 255 (b + inc))) / 3) as Hgray.
  { assert (3 * ((r + g + b) / 3) <= r + g + b < 3 * ((r + g + b) / 3) + 3)
      by (pose proof (Z.mul_div_le (r + g + b) 3);
          pose proof (Z.mul_succ_div_gt (r + g + b) 3); lia).
    assert (10 * inc <= 8 * (255 - (r + g + b) / 3) < 10 * inc + 10)
      by (subst inc; pose proof (Z.mul_div_le (8 * (255 - (r + g + b) / 3)) 10);
          pose proof (Z.mul_succ_div_gt (8 * (255 - (r + g + b) / 3)) 10); lia).
    clearbody inc.
    apply Z.lt_le_trans with (m := 129 - 0); [lia|].
    apply Z.div_le_lower_bound; lia. }
  apply Z.gtb_lt in Hgray. unfold gray. by rewrite Hgray.
Qed.
End ColorMore.

Section BusyMore.
Import BusyHours.

Lemma mapM_first_error {A B : Type} (f : A -> result B) (e : exn) (xs : list A) :
  (forall x e', f x = Raise e' -> e' = e) ->
  (exists x, x ∈ xs /\ f x = Raise e) ->
  mapM f xs = Raise e.
Proof.
  intros Honly. induction xs as [|x xs IH]; intros (y & Hy & Hf).
  - by apply elem_of_nil in Hy.
  - cbn. destruct (f x) as [b|e'] eqn:Hx; cbn.
    + apply elem_of_cons in Hy. destruct Hy as [->|Hy]; [congruence|].
      rewrite IH by eauto. reflexivity.
    + f_equal. eauto.
Qed.

(** X12. [get_day_busy_hours] raises a value error on an empty batch and
    an attribute error on a batch with an activity that has no employee. *)
Theorem day_busy_hours_errors (table : list Row) :
  get_day_busy_hours table [] = Raise ValueError
  /\ forall activities,
       (exists a, a ∈ activities /\ employee a = None) ->
       get_day_busy_hours table activities = Raise AttributeError.
Proof.
  split; [reflexivity|].
  intros activities (a & Ha & He). unfold get_day_busy_hours.
  rewrite (mapM_first_error _ AttributeError); [reflexivity| |].
  - intros x e'. destruct (employee x); [discriminate|]. by intros [= <-].
  - exists a. by rewrite He.
Qed.

Lemma foldl_insert_dom {A : Type} (kf : A -> Z) (vf : A -> value) (l : list A)
    (acc : gmap Z value) :
  dom (foldl (fun m a => <[kf a := vf a]> m) acc l)
  = dom acc ∪ list_to_set (kf <$> l).
Proof.
  revert acc. induction l as [|x l IH]; intros acc; cbn.
  - by rewrite (right_id_L ∅ (∪)).
  - rewrite IH, dom_insert_L.
    rewrite (comm_L (∪) {[kf x]} (dom acc)). by rewrite <- (assoc_L (∪)).
Qed.

(** X13. On a non-empty batch of activities that all have an employee and
    a date, the result has an entry for each activity id of the batch and
    for nothing else. *)
Theorem day_busy_hours_keys (table : list Row) (activities : list Activity) :
  activities <> [] ->
  (forall a, a ∈ activities -> is_Some (employee a) /\ is_Some (date a)) ->
  exists res,
    get_day_busy_hours table activities = Ok res
    /\ dom res = list_to_set (id <$> activities).
Proof.
  intros Hne Hall.
  set (emp := fun a : Activity => from_option employee_id 0 (employee a)).
  set (day := fun a : Activity => option.default 0 (date a)).
  unfold get_day_busy_hours.
  rewrite (mapM_total _ emp); cycle 1.
  { intros a Ha. destruct (Hall a Ha) as [[e He] _]. subst emp. cbn. by rewrite He. }
  assert (date <$> activities = Some <$> (day <$> activities)) as ->.
  { rewrite <- list_fmap_compose. apply list_fmap_ext.
    intros i a Ha. apply list_elem_of_lookup_2 in Ha.
    destruct (Hall a Ha) as [_ [d Hd]]. subst day. cbn. by rewrite Hd. }
  assert (day <$> activities <> []) as Hne'.
  { destruct activities; [contradiction|discriminate]. }
  destruct (py_extremum_bound Z.min Z.le (day <$> activities))
    as (lo & -> & Hlo); [lia|lia|lia|exact Hne'|].
  destruct (py_extremum_bound Z.max Z.ge (day <$> activities))
    as (hi & -> & Hhi); [lia|lia|lia|exact Hne'|].
  cbn [mbind result_bind].
  rewrite busy_loop_total by (intros a Ha; apply Hall, Ha).
  eexists. split; [reflexivity|].
  rewrite (foldl_insert_dom id). rewrite dom_empty_L. by rewrite (left_id_L ∅ (∪)).
Qed.
End BusyMore.

Section WriteMore.
Import Temporal Write.

Lemma Forall2_concat_app {A B : Type} (R : A -> B -> Prop)
    (xss : list (list A)) (yss : list (list B)) :
  Forall2 (Forall2 R) xss yss -> Forall2 R (List.concat xss) (List.concat yss).
Proof.
  induction 1 as [|xs ys xss yss H _ IH]; cbn; [constructor|].
  by apply Forall2_app.
Qed.

(** X14. A successful [write] hands to the framework one action per
    record, in the order of the arguments: the record alone, with the
    values [update_dates] derives from the values given for its batch and
    from that very record. *)
Theorem write_one_action_per_record (env : Env) (args out : list action) :
  write env args = Ok out ->
  Forall2 (fun (given : Activity * dict) (written : action) =>
             written.1 = [given.1]
             /\ update_dates env given.2 (Some given.1) = Ok written.2)
          (List.concat ((fun a : action => (fun r => (r, a.2)) <$> a.1) <$> args))
          out.
Proof.
  unfold write. intros H.
  destruct (mapM _ args) as [outs|] eqn:Hm; cbn in H; [|discriminate].
  injection H as <-.
  apply mapM_Forall2 in Hm.
  apply Forall2_concat_app.
  apply Forall2_fmap_l.
  eapply Forall2_impl; [exact Hm|].
  intros [activities values] ws Hw. cbn [fst snd].
  unfold write_records in Hw. apply mapM_Forall2 in Hw.
  apply Forall2_fmap_l.
  eapply Forall2_impl; [exact Hw|].
  intros a [rs v] Ha. cbn [fst snd].
  destruct (update_dates env values (Some a)) as [d|] eqn:Hu; cbn in Ha;
    [|discriminate].
  simplify_eq. split; [reflexivity|exact Hu].
Qed.
End WriteMore.

Section CreateMore.
Import Temporal Create.

(** X15. Each record that [create] prepares keeps every key of the given
    values, and every entry other than 'code' and the temporal fields as
    given. *)
Theorem create_preserves_other_fields {Sequence : Type}
    (Sequence_get : Sequence -> string * Sequence) (env : Env)
    (config : Configuration Sequence) (vlist out : list dict) (sequence' : Sequence) :
  create Sequence_get env config vlist = Ok (out, sequence') ->
  Forall2 (fun given created : dict =>
             (forall k, is_Some (given !! k) -> is_Some (created !! k))
             /\ (forall k, k <> "code" -> k ∉ temporal_fields ->
                           created !! k = given !! k))
          vlist out.
Proof.
  unfold create. destruct (activity_sequence config) as [sequence|]; [|discriminate].
  rewrite create_loop_mapM.
  destruct (mapM (prepare env) _) as [res|] eqn:Hm; cbn; [|discriminate].
  intros [= <- <-].
  apply mapM_Forall2 in Hm.
  assert (length (codes Sequence_get sequence (length vlist)) = length vlist) as Hlen.
  { generalize (length vlist). intros n. clear. revert sequence.
    induction n as [|n IH]; intros sequence; cbn; [reflexivity|].
    destruct (Sequence_get sequence). cbn. by rewrite IH. }
  revert Hm Hlen. generalize (codes Sequence_get sequence (length vlist)).
  intros cs. revert cs res.
  induction vlist as [|v vlist IH]; intros [|c cs] res Hm Hlen;
    try discriminate; cbn in Hm.
  - inversion Hm. constructor.
  - inversion Hm as [|? created ? res' Hprep Hrest]; subst.
    constructor; [|apply (IH cs); [done|by injection Hlen]].
    unfold prepare in Hprep. cbn [fst snd] in Hprep.
    apply update_dates_grows in Hprep. split.
    + intros k Hk. apply (Hprep k).
      destruct (decide (k = "code")) as [->|Hne].
      * rewrite lookup_insert_eq. eauto.
      * by rewrite lookup_insert_ne.
    + intros k Hcode Htemp. destruct (Hprep k) as [_ ->]; [|done].
      by rewrite lookup_insert_ne.
Qed.
End CreateMore.

Section RegisterMore.

Lemma rename_state_fields (old new : string) (r : Register.Row) :
  Register.dtstart (Register.rename_state old new r) = Register.dtstart r
  /\ Register.dtend (Register.rename_state old new r) = Register.dtend r
  /\ Register.date (Register.rename_state old new r) = Register.date r
  /\ Register.time (Register.rename_state old new r) = Register.time r
  /\ Register.duration (Register.rename_state old new r) = Register.duration r
  /\ Register.state (Register.rename_state old new r)
     = if String.eqb (Register.state r) old then new else Register.state r.
Proof.
  unfold Register.rename_state.
  destruct (String.eqb (Register.state r) old); repeat split.
Qed.

(** The state a row ends with. *)
Lemma renamed_state (r : Register.Row) :
  Register.state
    (Register.rename_state "canceled" "cancelled"
       (Register.rename_state "not_held" "canceled"
          (Register.rename_state "held" "done" r)))
  = if String.eqb (Register.state r) "held" then "done"
    else if String.eqb (Register.state r) "not_held"
            || String.eqb (Register.state r) "canceled"
         then "cancelled"
         else Register.state r.
Proof.
  rewrite !(proj2 (proj2 (proj2 (proj2 (proj2 (rename_state_fields _ _ _)))))).
  generalize (Register.state r). intros st.
  destruct (String.eqb_spec st "held") as [->|H1]; [reflexivity|].
  destruct (String.eqb_spec st "not_held") as [->|H2]; [reflexivity|].
  cbn [orb].
  destruct (String.eqb_spec st "canceled") as [->|H3]; reflexivity.
Qed.

(** X16. [__register__] keeps the number of rows and their timestamps;
    'held' becomes 'done', 'not_held' and 'canceled' become 'cancelled',
    any other state is kept; no row is left with a state of an earlier
    version. *)
Theorem register_states (table_exist date_column_exist : bool)
    (table : list Register.Row) :
  length (Register.register table_exist date_column_exist table) = length table
  /\ (forall r', r' ∈ Register.register table_exist date_column_exist table ->
                 Register.state r' ∉ Register.legacy_states)
  /\ (forall i r r',
         table !! i = Some r ->
         Register.register table_exist date_column_exist table !! i = Some r' ->
         Register.dtstart r' = Register.dtstart r
         /\ Register.dtend r' = Register.dtend r
         /\ Register.state r'
            = if String.eqb (Register.state r) "held" then "done"
              else if String.eqb (Register.state r) "not_held"
                      || String.eqb (Register.state r) "canceled"
                   then "cancelled"
                   else Register.state r).
Proof.
  assert (forall i r r',
             table !! i = Some r ->
             Register.register table_exist date_column_exist table !! i = Some r' ->
             Register.dtstart r' = Register.dtstart r
             /\ Register.dtend r' = Register.dtend r
             /\ Register.state r'
                = if String.eqb (Register.state r) "held" then "done"
                  else if String.eqb (Register.state r) "not_held"
                          || String.eqb (Register.state r) "canceled"
                       then "cancelled"
                       else Register.state r) as Hrow.
  { intros i r r' Hr. unfold Register.register.
    destruct (negb (if table_exist then date_column_exist else true));
      rewrite !list_lookup_fmap, Hr; cbn; intros [= <-];
      rewrite renamed_state;
      rewrite !(proj1 (rename_state_fields _ _ _)),
        !(proj1 (proj2 (rename_state_fields _ _ _))).
    - unfold Register.set_duration, Register.set_date_time. cbn.
      destruct (Register.dtend r); repeat split.
    - repeat split. }
  assert (length (Register.register table_exist date_column_exist table)
          = length table) as Hlen.
  { unfold Register.register.
    destruct (negb _); by rewrite !length_fmap. }
  split; [exact Hlen|]. split; [|exact Hrow].
  intros r' Hin. apply list_elem_of_lookup in Hin. destruct Hin as [i Hi].
  destruct (table !! i) as [r|] eqn:Hr.
  - destruct (Hrow i r r' Hr Hi) as (_ & _ & ->).
    unfold Register.legacy_states. rewrite !not_elem_of_cons.
    destruct (String.eqb_spec (Register.state r) "held") as [|H1];
      [repeat split; try discriminate; apply not_elem_of_nil|].
    destruct (String.eqb_spec (Register.state r) "not_held") as [|H2];
      [repeat split; try discriminate; apply not_elem_of_nil|].
    destruct (String.eqb_spec (Register.state r) "canceled") as [|H3]; cbn;
      repeat split; try discriminate; try done; apply not_elem_of_nil.
  - apply lookup_lt_Some in Hi. apply lookup_ge_None in Hr. lia.
Qed.

(** X17. After the migration of a table that had no date column, on
    every row date and time are those of the start timestamp (and combine
    back to it), and where both timestamps are set the duration is
    end - start, so that start + duration is the end. *)
Theorem register_from_5_2 (table : list Register.Row) (r' : Register.Row) :
  r' ∈ Register.register true false table ->
  Register.date r' = Datetime.date <$> Register.dtstart r'
  /\ Register.time r' = Datetime.time <$> Register.dtstart r'
  /\ (forall d t, Register.date r' = Some d -> Register.time r' = Some t ->
                  Register.dtstart r' = Some (Datetime.combine d t))
  /\ (forall s e, Register.dtstart r' = Some s -> Register.dtend r' = Some e ->
                  Register.duration r' = Some (Datetime.diff e s)
                  /\ s + Datetime.diff e s = e).
Proof.
  unfold Register.register. cbn [negb].
  rewrite <- !list_fmap_compose. intros Hin.
  apply list_elem_of_fmap in Hin. destruct Hin as (r & -> & _).
  cbn [compose].
  pose proof (fun a b x => proj1 (rename_state_fields a b x)) as F1.
  pose proof (fun a b x => proj1 (proj2 (rename_state_fields a b x))) as F2.
  pose proof (fun a b x => proj1 (proj2 (proj2 (rename_state_fields a b x)))) as F3.
  pose proof (fun a b x =>
                proj1 (proj2 (proj2 (proj2 (rename_state_fields a b x))))) as F4.
  pose proof (fun a b x =>
                proj1 (proj2 (proj2 (proj2 (proj2 (rename_state_fields a b x)))))) as F5.
  rewrite !F1, !F2, !F3, !F4, !F5. clear F1 F2 F3 F4 F5.
  destruct r as [s e d t u st].
  unfold Register.set_duration, Register.set_date_time. cbn.
  assert (forall z, Datetime.combine (Datetime.date z) (Datetime.time z) = z) as Hc.
  { intros z. unfold Datetime.combine, Datetime.date, Datetime.time.
    rewrite Z.mul_comm. symmetry. apply Z.div_mod. discriminate. }
  destruct e as [e|], s as [s|]; cbn.
  all: split; [reflexivity|]; split; [reflexivity|]; split.
  all: try (intros ? ? [= <-] [= <-]; by rewrite Hc).
  all: try (intros ? ? [=]; fail).
  all: try (intros ? ? ? [=]; fail).
  intros ? ? [= <-] [= <-]. split; [reflexivity|unfold Datetime.diff; lia].
Qed.

Lemma set_fields (r : Register.Row) :
  let r' := Register.set_duration (Register.set_date_time r) in
  Register.dtstart r' = Register.dtstart r
  /\ Register.dtend r' = Register.dtend r
  /\ Register.date r' = Datetime.date <$> Register.dtstart r
  /\ Register.time r' = Datetime.time <$> Register.dtstart r
  /\ Register.duration r'
     = match Register.dtend r with
       | Some e => (fun s => Datetime.diff e s) <$> Register.dtstart r
       | None => Register.duration r
       end
  /\ Register.state r' = Register.state r.
Proof.
  destruct r as [s e d t u st].
  unfold Register.set_duration, Register.set_date_time.
  destruct e; repeat split.
Qed.

Lemma row_ext (a b : Register.Row) :
  Register.dtstart a = Register.dtstart b ->
  Register.dtend a = Register.dtend b ->
  Register.date a = Register.date b ->
  Register.time a = Register.time b ->
  Register.duration a = Register.duration b ->
  Register.state a = Register.state b ->
  a = b.
Proof. destruct a, b. cbn. by intros -> -> -> -> -> ->. Qed.

Lemma final_state_idempotent (st : string) :
  let final := fun st : string =>
    if String.eqb st "held" then "done"
    else if String.eqb st "not_held" || String.eqb st "canceled"
         then "cancelled"
         else st in
  final (final st) = final st.
Proof.
  cbv zeta beta.
  destruct (String.eqb_spec st "held") as [->|H1]; [reflexivity|].
  destruct (String.eqb_spec st "not_held") as [->|H2]; [reflexivity|].
  destruct (String.eqb_spec st "canceled") as [->|H3]; [reflexivity|].
  cbn [orb].
  rewrite (proj2 (String.eqb_neq _ _) H1), (proj2 (String.eqb_neq _ _) H2),
    (proj2 (String.eqb_neq _ _) H3).
  reflexivity.
Qed.

(** X18. Registering twice gives the same table as registering once. *)
Theorem register_idempotent (table_exist date_column_exist : bool)
    (table : list Register.Row) :
  Register.register table_exist date_column_exist
    (Register.register table_exist date_column_exist table)
  = Register.register table_exist date_column_exist table.
Proof.
  pose proof (fun a b x => proj1 (rename_state_fields a b x)) as F1.
  pose proof (fun a b x => proj1 (proj2 (rename_state_fields a b x))) as F2.
  pose proof (fun a b x => proj1 (proj2 (proj2 (rename_state_fields a b x)))) as F3.
  pose proof (fun a b x =>
                proj1 (proj2 (proj2 (proj2 (rename_state_fields a b x))))) as F4.
  pose proof (fun a b x =>
                proj1 (proj2 (proj2 (proj2 (proj2 (rename_state_fields a b x)))))) as F5.
  pose proof (fun x => proj1 (set_fields x)) as S1.
  pose proof (fun x => proj1 (proj2 (set_fields x))) as S2.
  pose proof (fun x => proj1 (proj2 (proj2 (set_fields x)))) as S3.
  pose proof (fun x => proj1 (proj2 (proj2 (proj2 (set_fields x))))) as S4.
  pose proof (fun x => proj1 (proj2 (proj2 (proj2 (proj2 (set_fields x)))))) as S5.
  pose proof (fun x => proj2 (proj2 (proj2 (proj2 (proj2 (set_fields x)))))) as S6.
  cbv zeta in S1, S2, S3, S4, S5, S6.
  unfold Register.register.
  destruct (negb (if table_exist then date_column_exist else true)).
  all: rewrite <- !list_fmap_compose; apply list_fmap_ext; intros _ r _.
  all: unfold compose.
  all: apply row_ext;
       repeat first [ rewrite renamed_state | rewrite F1 | rewrite F2 | rewrite F3
                    | rewrite F4 | rewrite F5 | rewrite S1 | rewrite S2
                    | rewrite S3 | rewrite S4 | rewrite S5 | rewrite S6 ];
       try reflexivity;
       try apply final_state_idempotent.
  destruct (Register.dtend r); reflexivity.
Qed.
End RegisterMore.

(** ** Instances *)

Section Instances.
Import Temporal Color Calendar.

Lemma update_dates_frame_witness :
  (forall k, is_Some (Sample.timed_update !! k) ->
             is_Some (Fixtures.timed_derived !! k))
  /\ (forall k, k <> "date" -> k <> "time" -> k <> "duration" ->
                k <> "dtstart" -> k <> "dtend" ->
                Fixtures.timed_derived !! k = Sample.timed_update !! k).
Proof.
  apply (update_dates_frame Sample.env_plus_one Sample.timed_update
           Fixtures.timed_derived None).
  vm_compute. reflexivity.
Defined.

Lemma update_dates_start_not_datetime_witness :
  update_dates Sample.env_no_zone {[ "dtstart" := VNone ]} (Some Fixtures.morning)
  = Raise AttributeError.
Proof.
  apply (update_dates_start_not_datetime Sample.env_no_zone
           {[ "dtstart" := VNone ]} (Some Fixtures.morning) VNone).
  - reflexivity.
  - reflexivity.
  - discriminate.
Defined.

Lemma update_dates_date_overrides_timestamps_witness :
  update_dates Sample.env_plus_one
    (<["dtend" := VNone]>
       (<["dtstart" := VDateTime (Datetime.at_ Sample.new_year 23 0)]>
          Sample.timed_update)) None
  = update_dates Sample.env_plus_one Sample.timed_update None.
Proof.
  apply (update_dates_date_overrides_timestamps Sample.env_plus_one
           Sample.timed_update None Sample.new_year).
  reflexivity.
Defined.

Lemma update_dates_idempotent_witness :
  update_dates Sample.env_plus_one Fixtures.timed_derived None
  = Ok Fixtures.timed_derived.
Proof.
  apply (update_dates_idempotent Sample.env_plus_one Sample.timed_update
           Fixtures.timed_derived None).
  - exists (VDate Sample.new_year). reflexivity.
  - vm_compute. reflexivity.
Defined.

Lemma update_dates_without_date_witness :
  update_dates Sample.env_plus_one Fixtures.renaming None
  = Ok (fallback Fixtures.renaming None)
  /\ fallback Fixtures.renaming None !! "dtstart" = None
  /\ fallback Fixtures.renaming None !! "dtend" = None.
Proof.
  apply (update_dates_without_date Sample.env_plus_one Fixtures.renaming None).
  - reflexivity.
  - reflexivity.
  - reflexivity.
  - intros r H. discriminate H.
Defined.

Lemma utc_local_round_trip_witness :
  (local ← utc_to_local Sample.env_plus_one (Datetime.at_ Sample.new_year 9 0);
   local_to_utc Sample.env_plus_one local)
  = Ok (Datetime.at_ Sample.new_year 9 0).
Proof.
  apply (utc_local_round_trip Sample.env_plus_one Sample.plus_one_hour
           (Datetime.at_ Sample.new_year 9 0)); reflexivity.
Defined.

Lemma on_change_dtstart_effect_witness :
  let self := Fixtures.morning in
  let self' := set_date_time Fixtures.morning (Some Sample.new_year)
                 (Some (10 * Sample.hour)) in
  id self' = id self
  /\ activity_type self' = activity_type self
  /\ employee self' = employee self
  /\ duration self' = duration self
  /\ dtstart self' = dtstart self
  /\ state self' = state self
  /\ (dtstart self = None -> self' = self)
  /\ (is_Some (dtstart self) ->
      is_Some (date self') /\ time self' <> Some Datetime.midnight).
Proof.
  apply (on_change_dtstart_effect Sample.env_plus_one Fixtures.morning).
  reflexivity.
Defined.

Lemma update_dates_duration_consistent_witness :
  Fixtures.timed_derived !! "duration"
  = Some (VTimeDelta (Datetime.diff (Datetime.at_ Sample.new_year 10 0)
                                    (Datetime.at_ Sample.new_year 9 0))).
Proof.
  apply (update_dates_duration_consistent Sample.env_plus_one Sample.timed_update
           Fixtures.timed_derived None Sample.new_year).
  - vm_compute. reflexivity.
  - reflexivity.
  - reflexivity.
  - reflexivity.
Defined.

Lemma RGB_hex_round_trip_witness :
  RGB (CStr (hex (171, 214, 227))) = (171, 214, 227)
  /\ String.length (hex (171, 214, 227)) = 7%nat.
Proof. apply (RGB_hex_round_trip 171 214 227); lia. Defined.

Lemma calendar_color_black_unless_planned_witness :
  get_calendar_color Sample.env_no_zone
    (Sample.activity 1 None (Some Sample.alice) None "cancelled")
  = Ok "black".
Proof.
  apply (calendar_color_black_unless_planned Sample.env_no_zone
           (Sample.activity 1 None (Some Sample.alice) None "cancelled")).
  discriminate.
Defined.

Lemma day_busy_hours_keys_witness :
  exists res,
    BusyHours.get_day_busy_hours Sample.table [Fixtures.morning] = Ok res
    /\ dom res = list_to_set (id <$> [Fixtures.morning]).
Proof.
  apply (day_busy_hours_keys Sample.table [Fixtures.morning]).
  - discriminate.
  - intros a Ha. apply list_elem_of_singleton in Ha. subst a. split; eauto.
Defined.

Lemma write_one_action_per_record_witness :
  Forall2 (fun (given : Activity * dict) (written : Write.action) =>
             written.1 = [given.1]
             /\ update_dates Sample.env_plus_one given.2 (Some given.1)
                = Ok written.2)
          (List.concat
             ((fun a : Write.action => (fun r => (r, a.2)) <$> a.1)
              <$> [([Fixtures.morning], Sample.timed_update)]))
          [([Fixtures.morning], Fixtures.timed_derived)].
Proof.
  apply (write_one_action_per_record Sample.env_plus_one
           [([Fixtures.morning], Sample.timed_update)]
           [([Fixtures.morning], Fixtures.timed_derived)]).
  vm_compute. reflexivity.
Defined.

Lemma create_preserves_other_fields_witness :
  Forall2 (fun given created : dict =>
             (forall k, is_Some (given !! k) -> is_Some (created !! k))
             /\ (forall k, k <> "code" -> k ∉ temporal_fields ->
                           created !! k = given !! k))
          [Fixtures.renaming]
          [<["code" := VStr "1"]> Fixtures.renaming].
Proof.
  apply (create_preserves_other_fields Sample.counter_get Sample.env_plus_one
           {| Create.activity_sequence := Some 1%nat |}
           [Fixtures.renaming] [<["code" := VStr "1"]> Fixtures.renaming] 2%nat).
  vm_compute. reflexivity.
Defined.

Lemma register_from_5_2_witness :
  Register.date Fixtures.migrated_row
  = Datetime.date <$> Register.dtstart Fixtures.migrated_row
  /\ Register.time Fixtures.migrated_row
     = Datetime.time <$> Register.dtstart Fixtures.migrated_row
  /\ (forall d t,
         Register.date Fixtures.migrated_row = Some d ->
         Register.time Fixtures.migrated_row = Some t ->
         Register.dtstart Fixtures.migrated_row = Some (Datetime.combine d t))
  /\ (forall s e,
         Register.dtstart Fixtures.migrated_row = Some s ->
         Register.dtend Fixtures.migrated_row = Some e ->
         Register.duration Fixtures.migrated_row = Some (Datetime.diff e s)
         /\ s + Datetime.diff e s = e).
Proof.
  apply (register_from_5_2 [Fixtures.old_row] Fixtures.migrated_row).
  apply list_elem_of_singleton. reflexivity.
Defined.

End Instances.
